(** * WedsPlanner: the guest-list store and its dashboard figures

    A shallow embedding of [wedding_planner.py].  The pandas objects the
    script manipulates are modelled as far as the script uses them:

    - a cell of a frame is a Python value: a [str], an [int], a [bool] or the
      missing value [NaN];
    - a [DataFrame] is a row count together with its named columns, in
      column order;
    - operations that can raise return a [result].

    Text is restricted to code points below 256 (one [ascii] per code
    point).  Columns of dtype float64 other than the all-missing column are
    outside the model, and integers are the unbounded Python integers: the
    64-bit storage of pandas is not modelled, so the figures below are those
    of tables whose sums stay in that range. *)

From Stdlib Require Import List String Ascii ZArith Bool Lia DecimalString.
From Stdlib Require Import Sorted OrderedTypeEx.
Import ListNotations.
Local Open Scope string_scope.
Local Open Scope Z_scope.

(** ** Exceptions and fallible computations *)

Inductive exn : Type :=
| ValueError
| KeyError (col : string)
| EmptyDataError
| ParserError
| UnicodeError
| Unmodelled.

Inductive result (A : Type) : Type :=
| Ok (a : A)
| Raise (e : exn).
Arguments Ok {A} a.
Arguments Raise {A} e.

Definition bind {A B : Type} (m : result A) (k : A -> result B) : result B :=
  match m with
  | Ok a => k a
  | Raise e => Raise e
  end.

Notation "'do' x <- m ; k" := (bind m (fun x => k))
  (at level 10, x name, m at level 100, k at level 200).

Fixpoint mapM {A B : Type} (f : A -> result B) (l : list A) : result (list B) :=
  match l with
  | [] => Ok []
  | a :: l' => do b <- f a; do bs <- mapM f l'; Ok (b :: bs)
  end.

(** ** Python values *)

Module Py.

Inductive cell : Type :=
| CStr (s : string)
| CInt (z : Z)
| CBool (b : bool)
| CNaN.

(** [x == True]: [True] equals itself and the integer [1]. *)
Definition eq_True (x : cell) : bool :=
  match x with
  | CBool b => b
  | CInt z => z =? 1
  | CStr _ | CNaN => false
  end.

Definition str_of_Z (z : Z) : string := NilZero.string_of_int (Z.to_int z).

Definition str_of_bool (b : bool) : string := if b then "True" else "False".

(** [str(x)] *)
Definition str (x : cell) : string :=
  match x with
  | CStr s => s
  | CInt z => str_of_Z z
  | CBool b => str_of_bool b
  | CNaN => "nan"
  end.

(** [bool(x)]: the truth value of [x]; [nan] is a non-zero float. *)
Definition truthy (x : cell) : bool :=
  match x with
  | CStr s => negb (s =? "")%string
  | CInt z => negb (z =? 0)
  | CBool b => b
  | CNaN => true
  end.

(** The characters [str.strip] removes, below code point 256. *)
Definition is_space (c : ascii) : bool :=
  let n := nat_of_ascii c in
  ((9 <=? n) && (n <=? 13) || (28 <=? n) && (n <=? 32)
   || (n =? 133) || (n =? 160))%nat.

Definition digit_of (c : ascii) : option Z :=
  let n := Z.of_nat (nat_of_ascii c) in
  if (48 <=? n) && (n <=? 57) then Some (n - 48) else None.

Fixpoint lstrip (s : string) : string :=
  match s with
  | String c s' => if is_space c then lstrip s' else s
  | EmptyString => s
  end.

(** Digits of an integer literal after its first digit; a single underscore
    may separate two digits.  [us] tells that the previous character was an
    underscore.  Trailing white space ends the literal. *)
Fixpoint int_digits (acc : Z) (us : bool) (s : string) : option Z :=
  match s with
  | EmptyString => if us then None else Some acc
  | String c s' =>
      match digit_of c with
      | Some d => int_digits (10 * acc + d) false s'
      | None =>
          if Ascii.eqb c "_" then
            if us then None else int_digits acc true s'
          else if us then None
          else if (lstrip s =? "")%string then Some acc else None
      end
  end.

Definition int_unsigned (s : string) : option Z :=
  match s with
  | String c s' =>
      match digit_of c with
      | Some d => int_digits d false s'
      | None => None
      end
  | EmptyString => None
  end.

(** [int(s)] for a string [s], base 10. *)
Definition int_of_str (s : string) : result Z :=
  let body :=
    match lstrip s with
    | String "-" s' => option_map Z.opp (int_unsigned s')
    | String "+" s' => int_unsigned s'
    | s' => int_unsigned s'
    end in
  match body with
  | Some z => Ok z
  | None => Raise ValueError
  end.

(** [int(x)]; a missing value cannot be converted. *)
Definition int (x : cell) : result Z :=
  match x with
  | CStr s => int_of_str s
  | CInt z => Ok z
  | CBool b => Ok (if b then 1 else 0)
  | CNaN => Raise ValueError
  end.

End Py.
Export Py (cell (..)).

(** ** Series and frames *)

Definition Series : Type := list cell.

Definition fillna (v : cell) (s : Series) : Series :=
  map (fun x => match x with CNaN => v | _ => x end) s.

Definition astype_str (s : Series) : Series := map (fun x => CStr (Py.str x)) s.

Definition astype_int (s : Series) : result Series :=
  mapM (fun x => do z <- Py.int x; Ok (CInt z)) s.

Definition astype_bool (s : Series) : Series := map (fun x => CBool (Py.truthy x)) s.

(** [s.apply(f)] *)
Definition apply (f : cell -> cell) (s : Series) : Series := map f s.

Record DataFrame : Type := mkDataFrame {
  nrows : nat;
  columns : list (string * Series)
}.

Definition column_names (df : DataFrame) : list string := map fst (columns df).

(** [col in df.columns] *)
Definition has_column (col : string) (df : DataFrame) : bool :=
  existsb (String.eqb col) (column_names df).

Fixpoint lookup (col : string) (cs : list (string * Series)) : option Series :=
  match cs with
  | [] => None
  | (c, s) :: cs' => if (c =? col)%string then Some s else lookup col cs'
  end.

(** [df[col]] *)
Definition getitem (df : DataFrame) (col : string) : result Series :=
  match lookup col (columns df) with
  | Some s => Ok s
  | None => Raise (KeyError col)
  end.

Fixpoint assign (col : string) (s : Series) (cs : list (string * Series))
  : list (string * Series) :=
  match cs with
  | [] => [(col, s)]
  | (c, s0) :: cs' =>
      if (c =? col)%string then (c, s) :: cs' else (c, s0) :: assign col s cs'
  end.

(** [df[col] = s]: an existing column is replaced in place, a new one is
    appended. *)
Definition setitem (df : DataFrame) (col : string) (s : Series) : DataFrame :=
  mkDataFrame (nrows df) (assign col s (columns df)).

(** [df[col] = v] for a scalar [v], broadcast over the rows. *)
Definition setitem_scalar (df : DataFrame) (col : string) (v : cell) : DataFrame :=
  setitem df col (repeat v (nrows df)).

(** [df[cols]] for a list of column names. *)
Definition select (df : DataFrame) (cols : list string) : result DataFrame :=
  do cs <- mapM (fun c => do s <- getitem df c; Ok (c, s)) cols;
  Ok (mkDataFrame (nrows df) cs).

(** [pd.DataFrame(columns=cols)] *)
Definition empty_frame (cols : list string) : DataFrame :=
  mkDataFrame 0 (map (fun c => (c, [])) cols).

(** ** The store *)

Definition COLUMNS : list string :=
  ["Name"; "Category"; "City"; "Mobile"; "Event"; "Headcount";
   "Rooms Required"; "Invite Given"; "Notes"].

Definition text_cols : list string :=
  ["Name"; "Category"; "City"; "Mobile"; "Event"; "Notes"].

(** The migration of [load_data]: rooms from the old accommodation flag. *)
Definition migrate (df : DataFrame) : DataFrame :=
  if has_column "Accommodation Needed" df && negb (has_column "Rooms Required" df)
  then
    match lookup "Accommodation Needed" (columns df) with
    | Some s =>
        setitem df "Rooms Required"
          (apply (fun x => if Py.eq_True x then CInt 1 else CInt 0) s)
    | None => df
    end
  else df.

(** The value a missing standard column is filled with. *)
Definition default_of (col : string) : cell :=
  if (col =? "Headcount")%string then CInt 1
  else if (col =? "Rooms Required")%string then CInt 0
  else if (col =? "Invite Given")%string then CBool false
  else CStr "".

Definition complete_column (df : DataFrame) (col : string) : DataFrame :=
  if has_column col df then df else setitem_scalar df col (default_of col).

(** [for col in COLUMNS: if col not in df.columns: ...] *)
Definition complete (df : DataFrame) : DataFrame :=
  fold_left complete_column COLUMNS df.

Definition coerce_text_column (df : DataFrame) (col : string) : DataFrame :=
  match lookup col (columns df) with
  | Some s => setitem df col (astype_str (fillna (CStr "") s))
  | None => df
  end.

Definition coerce_int_column (col : string) (dflt : Z) (df : DataFrame)
  : result DataFrame :=
  match lookup col (columns df) with
  | Some s => do s' <- astype_int (fillna (CInt dflt) s); Ok (setitem df col s')
  | None => Ok df
  end.

Definition coerce_bool_column (col : string) (df : DataFrame) : DataFrame :=
  match lookup col (columns df) with
  | Some s => setitem df col (astype_bool (fillna (CBool false) s))
  | None => df
  end.

(** The type-safety part of [load_data], and its final projection. *)
Definition coerce (df : DataFrame) : result DataFrame :=
  let df := fold_left coerce_text_column text_cols df in
  do df <- coerce_int_column "Headcount" 1 df;
  do df <- coerce_int_column "Rooms Required" 0 df;
  let df := coerce_bool_column "Invite Given" df in
  select df COLUMNS.

(** [load_data] once the file has been looked up and read: [None] when
    [guest_list.csv] does not exist, [Some df] for what [pd.read_csv]
    returned. *)
Definition load_frame (stored : option DataFrame) : result DataFrame :=
  let df :=
    match stored with
    | Some df => complete (migrate df)
    | None => empty_frame COLUMNS
    end in
  coerce df.

(** ** Tables in canonical form *)

Record GuestRecord : Type := mkGuest {
  Name : string;
  Category : string;
  City : string;
  Mobile : string;
  Event : string;
  Headcount : Z;
  Rooms_Required : Z;
  Invite_Given : bool;
  Notes : string
}.

Definition GuestTable : Type := list GuestRecord.

(** The frame of a table: the nine standard columns, in order, each with
    its own type of cell. *)
Definition to_frame (t : GuestTable) : DataFrame :=
  mkDataFrame (List.length t)
    [("Name", map (fun r => CStr (Name r)) t);
     ("Category", map (fun r => CStr (Category r)) t);
     ("City", map (fun r => CStr (City r)) t);
     ("Mobile", map (fun r => CStr (Mobile r)) t);
     ("Event", map (fun r => CStr (Event r)) t);
     ("Headcount", map (fun r => CInt (Headcount r)) t);
     ("Rooms Required", map (fun r => CInt (Rooms_Required r)) t);
     ("Invite Given", map (fun r => CBool (Invite_Given r)) t);
     ("Notes", map (fun r => CStr (Notes r)) t)].

(** ** Column operations on a table *)

(** [s.isin(values)] *)
Definition isin (s : list string) (values : list string) : list bool :=
  map (fun x => existsb (String.eqb x) values) s.

(** [df[mask]]: the rows whose entry in the boolean series is true. *)
Fixpoint mask_rows {A : Type} (df : list A) (mask : list bool) : list A :=
  match df, mask with
  | r :: df', b :: mask' =>
      if b then r :: mask_rows df' mask' else mask_rows df' mask'
  | _, _ => []
  end.

(** [s.sum()] *)
Definition sum (s : list Z) : Z := fold_right Z.add 0 s.

(** [len(df)] *)
Definition len {A : Type} (df : list A) : Z := Z.of_nat (List.length df).

(** ** Dashboard figures (first tab) *)

Definition total_pax (df : GuestTable) : Z := sum (map Headcount df).

Definition total_families (df : GuestTable) : Z := len df.

Definition invites_sent (df : GuestTable) : Z :=
  len (mask_rows df (map (fun b => Bool.eqb b true) (map Invite_Given df))).

Definition pending (df : GuestTable) : Z := total_families df - invites_sent df.

(** ** Catering and rooms (second tab) *)

Definition reception_total (df : GuestTable) : Z :=
  sum (map Headcount (mask_rows df (isin (map Event df) ["Reception"; "Both"]))).

Definition wedding_total (df : GuestTable) : Z :=
  sum (map Headcount
         (mask_rows df (isin (map Event df) ["Wedding (Mugurtham)"; "Both"]))).

Definition total_rooms (df : GuestTable) : Z := sum (map Rooms_Required df).

(** A row of [room_df]: the columns Name, City, Rooms Required, Mobile. *)
Record RoomRow : Type := mkRoomRow {
  room_Name : string;
  room_City : string;
  room_Rooms_Required : Z;
  room_Mobile : string
}.

Definition room_columns (r : GuestRecord) : RoomRow :=
  mkRoomRow (Name r) (City r) (Rooms_Required r) (Mobile r).

Definition room_df (df : GuestTable) : list RoomRow :=
  map room_columns (mask_rows df (map (fun z => 0 <? z) (map Rooms_Required df))).

(** ** CSV text *)

Module Csv.

Definition dquote : ascii := ascii_of_nat 34.
Definition LF : ascii := ascii_of_nat 10.
Definition CR : ascii := ascii_of_nat 13.
Definition comma : ascii := ",".

(** What [to_csv] prints for a cell; a missing value prints as nothing. *)
Definition format (x : cell) : string :=
  match x with
  | CNaN => ""
  | _ => Py.str x
  end.

Definition special (c : ascii) : bool :=
  Ascii.eqb c comma || Ascii.eqb c dquote || Ascii.eqb c LF || Ascii.eqb c CR.

Fixpoint has_special (s : string) : bool :=
  match s with
  | EmptyString => false
  | String c s' => special c || has_special s'
  end.

Fixpoint double_quotes (s : string) : string :=
  match s with
  | EmptyString => EmptyString
  | String c s' =>
      if Ascii.eqb c dquote then String c (String c (double_quotes s'))
      else String c (double_quotes s')
  end.

Definition quoted (s : string) : string :=
  String dquote (double_quotes s ++ String dquote EmptyString).

(** Minimal quoting: a field is quoted when it holds the delimiter, the
    quote character or a line break. *)
Definition field (s : string) : string :=
  if has_special s then quoted s else s.

(** One record and its line terminator.  A record made of a single empty
    field is written quoted. *)
Definition record (fields : list string) : string :=
  match fields with
  | [EmptyString] => quoted "" ++ String LF EmptyString
  | _ => String.concat "," (map field fields) ++ String LF EmptyString
  end.

Definition row_at (cols : list Series) (i : nat) : list cell :=
  map (fun s => nth i s CNaN) cols.

(** The records [df.to_csv(index=False)] writes: the header, then a record
    per row. *)
Definition records (df : DataFrame) : list string :=
  record (column_names df)
  :: map (fun i => record (map format (row_at (map snd (columns df)) i)))
       (seq 0 (nrows df)).

End Csv.

(** ** UTF-8 *)

Module Utf8.

Definition byte_of_N (n : N) : Byte.byte := byte_of_ascii (ascii_of_N n).

(** The encoding of one code point below 256. *)
Definition encode_char (c : ascii) : list Byte.byte :=
  let n := N_of_ascii c in
  if (n <? 128)%N then [byte_of_N n]
  else [byte_of_N (192 + n / 64); byte_of_N (128 + n mod 64)]%N.

(** [s.encode('utf-8')] *)
Fixpoint encode (s : string) : list Byte.byte :=
  match s with
  | EmptyString => []
  | String c s' => encode_char c ++ encode s'
  end.

Definition continuation (n : N) : bool := ((128 <=? n) && (n <? 192))%N.

(** Decoding, for the code points of the model: a longer sequence that
    starts well is [Unmodelled], anything else ill-formed is an error. *)
Fixpoint decode (bs : list Byte.byte) : result string :=
  match bs with
  | [] => Ok EmptyString
  | b :: bs' =>
      let n := Byte.to_N b in
      if (n <? 128)%N then
        do s <- decode bs'; Ok (String (ascii_of_N n) s)
      else if ((n =? 194) || (n =? 195))%N then
        match bs' with
        | b2 :: bs'' =>
            let m := Byte.to_N b2 in
            if continuation m then
              do s <- decode bs'';
              Ok (String (ascii_of_N ((n - 192) * 64 + (m - 128))) s)
            else Raise UnicodeError
        | [] => Raise UnicodeError
        end
      else if ((196 <=? n) && (n <? 245))%N then Raise Unmodelled
      else Raise UnicodeError
  end.

End Utf8.

(** ** Writing the table *)

(** [df.to_csv(index=False)]: the text, returned as one string. *)
Definition to_csv (df : DataFrame) : string :=
  String.concat "" (Csv.records df).

(** [df.to_csv(path, index=False)]: the records go one after the other
    through the file handle, which encodes what it is given as UTF-8; the
    result is the content of the file. *)
Definition to_csv_path (df : DataFrame) : list Byte.byte :=
  flat_map Utf8.encode (Csv.records df).

(** The content of [guest_list.csv], when the file exists. *)
Definition FileSystem : Type := option (list Byte.byte).

Definition save_data (df : DataFrame) (fs : FileSystem) : FileSystem :=
  Some (to_csv_path df).

Definition convert_df (df : DataFrame) : list Byte.byte :=
  Utf8.encode (to_csv df).

(** ** Reading the table *)

Module Reader.

Import Csv.

Inductive mode : Type := FieldStart | Unquoted | Quoted | QuoteInQuoted | SawCR.

(** The tokenizer state; the field, the record and the records read so far
    are kept in reverse. *)
Record state : Type := mkState {
  st_mode : mode;
  st_field : list ascii;
  st_record : list string;
  st_records : list (list string)
}.

Definition initial : state := mkState FieldStart [] [] [].

Definition push_char (c : ascii) (m : mode) (st : state) : state :=
  mkState m (c :: st_field st) (st_record st) (st_records st).

Definition push_field (m : mode) (st : state) : state :=
  mkState m [] (string_of_list_ascii (rev (st_field st)) :: st_record st)
    (st_records st).

Definition push_record (m : mode) (st : state) : state :=
  let st' := push_field m st in
  mkState m [] [] (rev (st_record st') :: st_records st').

Definition set_mode (m : mode) (st : state) : state :=
  mkState m (st_field st) (st_record st) (st_records st).

Definition blank (c : ascii) : bool := Ascii.eqb c " " || Ascii.eqb c (ascii_of_nat 9).

Definition no_fields (st : state) : bool :=
  match st_record st with [] => true | _ => false end.

(** A character at the start of a field.  Empty lines are skipped; a line
    that starts with a blank is outside the model. *)
Definition step_start (st : state) (c : ascii) : result state :=
  if Ascii.eqb c dquote then Ok (set_mode Quoted st)
  else if Ascii.eqb c comma then Ok (push_field FieldStart st)
  else if Ascii.eqb c LF then
    Ok (if no_fields st then st else push_record FieldStart st)
  else if Ascii.eqb c CR then
    Ok (if no_fields st then set_mode SawCR st else push_record SawCR st)
  else if blank c && no_fields st then Raise Unmodelled
  else Ok (push_char c Unquoted st).

Definition step (st : state) (c : ascii) : result state :=
  match st_mode st with
  | FieldStart => step_start st c
  | SawCR =>
      if Ascii.eqb c LF then Ok (set_mode FieldStart st)
      else step_start (set_mode FieldStart st) c
  | Unquoted =>
      if Ascii.eqb c comma then Ok (push_field FieldStart st)
      else if Ascii.eqb c LF then Ok (push_record FieldStart st)
      else if Ascii.eqb c CR then Ok (push_record SawCR st)
      else if Ascii.eqb c dquote then Raise Unmodelled
      else Ok (push_char c Unquoted st)
  | Quoted =>
      if Ascii.eqb c dquote then Ok (set_mode QuoteInQuoted st)
      else Ok (push_char c Quoted st)
  | QuoteInQuoted =>
      if Ascii.eqb c dquote then Ok (push_char c Quoted st)
      else if Ascii.eqb c comma then Ok (push_field FieldStart st)
      else if Ascii.eqb c LF then Ok (push_record FieldStart st)
      else if Ascii.eqb c CR then Ok (push_record SawCR st)
      else Raise Unmodelled
  end.

Definition finish (st : state) : result (list (list string)) :=
  match st_mode st with
  | SawCR => Ok (rev (st_records st))
  | FieldStart =>
      Ok (rev (st_records (if no_fields st then st else push_record FieldStart st)))
  | Unquoted | QuoteInQuoted => Ok (rev (st_records (push_record FieldStart st)))
  | Quoted => Raise ParserError
  end.

Fixpoint run (st : state) (s : string) : result (list (list string)) :=
  match s with
  | EmptyString => finish st
  | String c s' => do st' <- step st c; run st' s'
  end.

Definition tokenize (s : string) : result (list (list string)) := run initial s.

(** The tokens read as a missing value. *)
Definition na_values : list string :=
  [""; "#N/A"; "#N/A N/A"; "#NA"; "-1.#IND"; "-1.#QNAN"; "-NaN"; "-nan";
   "1.#IND"; "1.#QNAN"; "<NA>"; "N/A"; "NA"; "NULL"; "NaN"; "None"; "n/a";
   "nan"; "null"].

Definition is_na (tok : string) : bool := existsb (String.eqb tok) na_values.

Definition c_space (c : ascii) : bool :=
  let n := nat_of_ascii c in ((n =? 32) || (9 <=? n) && (n <=? 13))%nat.

Fixpoint skip_spaces (s : string) : string :=
  match s with
  | String c s' => if c_space c then skip_spaces s' else s
  | EmptyString => s
  end.

Fixpoint digits (acc : Z) (s : string) : option Z :=
  match s with
  | EmptyString => Some acc
  | String c s' =>
      match Py.digit_of c with
      | Some d => digits (10 * acc + d) s'
      | None => if (skip_spaces s =? "")%string then Some acc else None
      end
  end.

Definition unsigned (s : string) : option Z :=
  match s with
  | String c s' =>
      match Py.digit_of c with
      | Some d => digits d s'
      | None => None
      end
  | EmptyString => None
  end.

(** A token as a 64-bit integer, when it is one. *)
Definition int64_of (tok : string) : option Z :=
  let z :=
    match skip_spaces tok with
    | String "-" s' => option_map Z.opp (unsigned s')
    | String "+" s' => unsigned s'
    | s' => unsigned s'
    end in
  match z with
  | Some z =>
      if (- 2 ^ 63 <=? z) && (z <? 2 ^ 63) then Some z else None
  | None => None
  end.

Fixpoint all_some {A : Type} (l : list (option A)) : option (list A) :=
  match l with
  | [] => Some []
  | Some a :: l' => option_map (cons a) (all_some l')
  | None :: _ => None
  end.

Definition bool_of (tok : string) : option bool :=
  if existsb (String.eqb tok) ["True"; "TRUE"; "true"] then Some true
  else if existsb (String.eqb tok) ["False"; "FALSE"; "false"] then Some false
  else None.

Definition upper (c : ascii) : ascii :=
  let n := nat_of_ascii c in
  if ((97 <=? n) && (n <=? 122))%nat then ascii_of_nat (n - 32) else c.

Fixpoint uppercase (s : string) : string :=
  match s with
  | EmptyString => EmptyString
  | String c s' => String (upper c) (uppercase s')
  end.

(** Spelled like a boolean, whatever the case. *)
Definition boolish (tok : string) : bool :=
  existsb (String.eqb (uppercase tok)) ["TRUE"; "FALSE"].

(** The characters a floating-point token is made of. *)
Definition float_char (c : ascii) : bool :=
  match Py.digit_of c with
  | Some _ => true
  | None =>
      blank c
      || existsb (Ascii.eqb (upper c))
           (list_ascii_of_string "+-.EINFTYA")
  end.

Fixpoint all_float_chars (s : string) : bool :=
  match s with
  | EmptyString => true
  | String c s' => float_char c && all_float_chars s'
  end.

(** The inferred column of a list of tokens: all missing, 64-bit integers,
    booleans (with missing values), or text (with missing values).  A
    column that may be read as floating point is outside the model, and so
    is one with a boolean in an unusual case. *)
Definition infer (toks : list string) : result Series :=
  let present := filter (fun t => negb (is_na t)) toks in
  match present with
  | [] => Ok (map (fun _ => CNaN) toks)
  | _ =>
      match all_some (map int64_of toks) with
      | Some zs => Ok (map CInt zs)
      | None =>
          if existsb (fun t => boolish t && negb (existsb (String.eqb t)
                        ["True"; "TRUE"; "true"; "False"; "FALSE"; "false"]))
               present
          then Raise Unmodelled
          else
            match all_some (map bool_of present) with
            | Some _ =>
                Ok (map (fun t => match bool_of t with
                                  | Some b => CBool b
                                  | None => CNaN
                                  end) toks)
            | None =>
                if existsb (fun t => negb (all_float_chars t)) present
                then Ok (map (fun t => if is_na t then CNaN else CStr t) toks)
                else Raise Unmodelled
            end
      end
  end.

Fixpoint no_dup (l : list string) : bool :=
  match l with
  | [] => true
  | x :: l' => negb (existsb (String.eqb x) l') && no_dup l'
  end.

(** [pd.read_csv] on the text of the file.  Repeated or empty column
    names and rows longer than the header are outside the model; shorter
    rows are completed with missing values. *)
Definition read_csv (text : string) : result DataFrame :=
  do recs <- tokenize text;
  match recs with
  | [] => Raise EmptyDataError
  | header :: rows =>
      if negb (no_dup header) || existsb (String.eqb "") header
         || existsb (fun r => (List.length header <? List.length r)%nat) rows
      then Raise Unmodelled
      else
        do cols <- mapM (fun j => infer (map (fun r => nth j r "") rows))
                     (seq 0 (List.length header));
        Ok (mkDataFrame (List.length rows) (combine header cols))
  end.

End Reader.

(** [load_data], from the file system. *)
Definition load_data (fs : FileSystem) : result DataFrame :=
  match fs with
  | Some bytes =>
      do text <- Utf8.decode bytes;
      do df <- Reader.read_csv text;
      load_frame (Some df)
  | None => load_frame None
  end.

(** ** The add-guest form *)

(** What the sidebar form holds when the script runs. *)
Record Form : Type := mkForm {
  name : string;
  category : string;
  city : string;
  mobile : string;
  event : string;
  headcount : Z;
  rooms : Z;
  invite_given : bool;
  notes : string;
  submitted : bool
}.

(** The state a run of the script starts from: the table kept in
    [st.session_state.data] and the file system. *)
Record Session : Type := mkSession {
  data : GuestTable;
  files : FileSystem
}.

(** What a run shows or does besides changing the state. *)
Inductive effect : Type :=
| WriteFile (content : list Byte.byte)
| Toast (added : string)
| Rerun.

Definition new_entry (f : Form) : GuestRecord :=
  mkGuest (name f) (category f) (city f) (mobile f) (event f) (headcount f)
    (rooms f) (invite_given f) (notes f).

(** [pd.concat([df, new], ignore_index=True)] *)
Definition concat (df new : GuestTable) : GuestTable := (df ++ new)%list.

(** The body of the form: [if submitted and name: ...]. *)
Definition add_guest_form (f : Form) (s : Session) : Session * list effect :=
  if submitted f && negb (name f =? "")%string then
    let data' := concat (data s) [new_entry f] in
    let files' := save_data (to_frame data') (files s) in
    (mkSession data' files',
     [WriteFile (to_csv_path (to_frame data')); Toast (name f); Rerun])
  else (s, []).

(** ** The figures as the specification words them *)

Module Spec.

Definition familyCount (t : GuestTable) : Z := Z.of_nat (List.length t).

Definition invitesSent (t : GuestTable) : Z :=
  Z.of_nat (List.length (filter Invite_Given t)).

Definition pendingCount (t : GuestTable) : Z :=
  Z.of_nat (List.length (filter (fun r => negb (Invite_Given r)) t)).

Definition event_is (e : string) (r : GuestRecord) : bool := (Event r =? e)%string.

Definition receptionPlates (t : GuestTable) : Z :=
  fold_right Z.add 0
    (map Headcount
       (filter (fun r => event_is "Reception" r || event_is "Both" r) t)).

Definition weddingPlates (t : GuestTable) : Z :=
  fold_right Z.add 0
    (map Headcount
       (filter (fun r => event_is "Wedding (Mugurtham)" r || event_is "Both" r) t)).

Definition needs_room (r : GuestRecord) : bool := 0 <? Rooms_Required r.

Definition roomsNeeded (t : GuestTable) : list RoomRow :=
  map (fun r => mkRoomRow (Name r) (City r) (Rooms_Required r) (Mobile r))
    (filter needs_room t).

(** [l] is [t] with some records left out, the others in their order. *)
Inductive subsequence {A : Type} : list A -> list A -> Prop :=
| sub_nil : subsequence [] []
| sub_keep : forall x l t, subsequence l t -> subsequence (x :: l) (x :: t)
| sub_drop : forall x l t, subsequence l t -> subsequence l (x :: t).

End Spec.

(** ** The loaded table, column by column *)

(** The series of a column, empty when the frame has no such column. *)
Definition column (df : DataFrame) (col : string) : Series :=
  match lookup col (columns df) with
  | Some s => s
  | None => []
  end.

Definition text_of (s : Series) : Series := astype_str (fillna (CStr "") s).

(** What [coerce] returns on a frame that has the nine standard columns,
    written out column by column. *)
Definition coerced (df : DataFrame) : result DataFrame :=
  do h <- astype_int (fillna (CInt 1) (column df "Headcount"));
  do r <- astype_int (fillna (CInt 0) (column df "Rooms Required"));
  Ok (mkDataFrame (nrows df)
        [("Name", text_of (column df "Name"));
         ("Category", text_of (column df "Category"));
         ("City", text_of (column df "City"));
         ("Mobile", text_of (column df "Mobile"));
         ("Event", text_of (column df "Event"));
         ("Headcount", h);
         ("Rooms Required", r);
         ("Invite Given", astype_bool (fillna (CBool false) (column df "Invite Given")));
         ("Notes", text_of (column df "Notes"))]).

(** The conversion of the stored head counts to integers goes through
    (there is nothing to convert when the column is not stored). *)
Definition headcount_converts (df : DataFrame) : Prop :=
  match lookup "Headcount" (columns df) with
  | Some s => exists h, astype_int (fillna (CInt 1) s) = Ok h
  | None => True
  end.

(** The same for the stored rooms. *)
Definition rooms_converts (df : DataFrame) : Prop :=
  match lookup "Rooms Required" (columns df) with
  | Some s => exists r, astype_int (fillna (CInt 0) s) = Ok r
  | None => True
  end.

(** The rooms the migration gives for a value of the old flag. *)
Definition rooms_of_flag (x : cell) : cell :=
  if Py.eq_True x then CInt 1 else CInt 0.

Definition is_int (x : cell) : Prop := exists z, x = CInt z.

(** ** Equality of tables *)

Definition GuestRecord_eqb (a b : GuestRecord) : bool :=
  (Name a =? Name b)%string && (Category a =? Category b)%string
  && (City a =? City b)%string && (Mobile a =? Mobile b)%string
  && (Event a =? Event b)%string && (Headcount a =? Headcount b)
  && (Rooms_Required a =? Rooms_Required b)
  && Bool.eqb (Invite_Given a) (Invite_Given b)
  && (Notes a =? Notes b)%string.

(** [df.equals(other)] *)
Fixpoint equals (df other : GuestTable) : bool :=
  match df, other with
  | [], [] => true
  | a :: df', b :: other' => GuestRecord_eqb a b && equals df' other'
  | _, _ => false
  end.

(** ** The master list (third tab) *)

(** What follows the data editor, [edited_df] being what the editor
    returned: [if not df.equals(edited_df): ...]. *)
Definition update_table (edited_df : GuestTable) (s : Session)
  : Session * list effect :=
  if negb (equals (data s) edited_df) then
    (mkSession edited_df (save_data (to_frame edited_df) (files s)),
     [WriteFile (to_csv_path (to_frame edited_df)); Rerun])
  else (s, []).

(** [st.rerun()] ends the run of the script. *)
Definition reruns (effects : list effect) : bool :=
  existsb (fun e => match e with Rerun => true | _ => false end) effects.

(** One run of the script on a loaded session: the form in the side bar,
    then, unless the form asked for a new run, the editor of the third
    tab. *)
Definition run (f : Form) (edited_df : GuestTable) (s : Session)
  : Session * list effect :=
  let (s', effects) := add_guest_form f s in
  if reruns effects then (s', effects)
  else
    let (s'', effects') := update_table edited_df s' in
    (s'', (effects ++ effects')%list).

(** ** What the tabs show *)

(** [df.empty] for a table of nine columns. *)
Definition empty {A : Type} (df : list A) : bool :=
  match df with [] => true | _ => false end.

Record Metrics : Type := mkMetrics {
  metric_total_pax : Z;
  metric_families : Z;
  metric_invites_sent : Z;
  metric_pending : Z
}.

(** The first row of the first tab, [None] for the invitation to add
    guests. *)
Definition tab1 (df : GuestTable) : option Metrics :=
  if empty df then None
  else Some (mkMetrics (total_pax df) (total_families df) (invites_sent df)
               (pending df)).

(** [df.groupby(key)[value].sum().reset_index()]: one row per value of the
    key, in the order of the keys, with the sum of its records. *)
Fixpoint add_to_group (k : string) (v : Z) (groups : list (string * Z))
  : list (string * Z) :=
  match groups with
  | [] => [(k, v)]
  | (k', v') :: groups' =>
      match String.compare k k' with
      | Eq => (k', v' + v) :: groups'
      | Lt => (k, v) :: groups
      | Gt => (k', v') :: add_to_group k v groups'
      end
  end.

Definition groupby_sum (key : GuestRecord -> string) (value : GuestRecord -> Z)
    (df : GuestTable) : list (string * Z) :=
  fold_right (fun r groups => add_to_group (key r) (value r) groups) [] df.

(** The pie of the first tab. *)
Definition cat_counts (df : GuestTable) : list (string * Z) :=
  groupby_sum Category Headcount df.

Inductive RoomsView : Type :=
| RoomsTable (rows : list RoomRow)
| NoRoomsNeeded.

Record Logistics : Type := mkLogistics {
  shown_reception : Z;
  shown_wedding : Z;
  shown_rooms : Z;
  shown_room_view : RoomsView
}.

(** The second tab, [None] for "No data." *)
Definition tab2 (df : GuestTable) : option Logistics :=
  if empty df then None
  else
    Some (mkLogistics (reception_total df) (wedding_total df) (total_rooms df)
            (if negb (empty (room_df df)) then RoomsTable (room_df df)
             else NoRoomsNeeded)).

(** The file holds what the table exports to. *)
Definition in_sync (s : Session) : Prop :=
  files s = Some (convert_df (to_frame (data s))).

(** Every column of a frame has one cell per row. *)
Definition well_formed (df : DataFrame) : Prop :=
  Forall (fun cs => List.length (snd cs) = nrows df) (columns df).

Definition is_str (x : cell) : Prop := exists s, x = CStr s.
Definition is_bool (x : cell) : Prop := exists b, x = CBool b.

(** The event of a record is one of [events]. *)
Definition in_events (events : list string) (r : GuestRecord) : bool :=
  existsb (String.eqb (Event r)) events.

(** The head counts of the records that satisfy [p]. *)
Definition heads (p : GuestRecord -> bool) (t : GuestTable) : Z :=
  sum (map Headcount (filter p t)).

(** The sum of a key in a list of groups. *)
Fixpoint group_of (k : string) (groups : list (string * Z)) : option Z :=
  match groups with
  | [] => None
  | (k', v) :: groups' => if (k' =? k)%string then Some v else group_of k groups'
  end.


(** ** Sample data *)

Local Open Scope list_scope.

Definition asha : GuestRecord :=
  mkGuest "Asha" "Family" "Chennai" "09876543210" "Both" 5 2 false "x".

(** [asha] with the leading zero of the mobile number gone. *)
Definition asha_reloaded : GuestRecord :=
  mkGuest "Asha" "Family" "Chennai" "9876543210" "Both" 5 2 false "x".

Definition ravi : GuestRecord :=
  mkGuest "Ravi" "Friend" "Coimbatore" "n/k" "Reception" 3 0 true "late".

Definition meena : GuestRecord :=
  mkGuest "Meena" "Office" "Salem" "n/k" "Wedding (Mugurtham)" 2 1 false "veg".

Definition sample_table : GuestTable := [asha; ravi; meena].

(** An old file: a name column and the accommodation flag only. *)
Definition legacy_frame : DataFrame :=
  mkDataFrame 3
    [("Name", [CStr "Asha"; CStr "Ravi"; CStr "Meena"]);
     ("Accommodation Needed", [CBool true; CBool false; CBool true])].

(** An old file whose flag was not always written as a boolean. *)
Definition mixed_flags : Series :=
  [CBool true; CNaN; CStr "yes"; CBool false; CInt 1; CInt 2].

Definition mixed_legacy_frame : DataFrame :=
  mkDataFrame 6
    [("Name", [CStr "a"; CStr "b"; CStr "c"; CStr "d"; CStr "e"; CStr "f"]);
     ("Accommodation Needed", mixed_flags)].

(** A file with names only. *)
Definition names_frame : DataFrame :=
  mkDataFrame 2 [("Name", [CStr "Asha"; CStr "Ravi"])].

Definition empty_name_form : Form :=
  mkForm "" "Family" "Chennai" "0123" "Both" 2 1 true "x" true.

(** A submitted form with a name, and a form left alone. *)
Definition kavya_form : Form :=
  mkForm "Kavya" "Friend" "Madurai" "n/k" "Both" 4 1 false "" true.

Definition idle_form : Form :=
  mkForm "" "Family" "" "" "Reception" 1 0 false "" false.

Definition sample_session : Session :=
  mkSession sample_table (Some (convert_df (to_frame sample_table))).

(** [names_frame] with a column of no standard name in front. *)
Definition names_frame_shuffled : DataFrame :=
  mkDataFrame 2
    [("Age", [CInt 30; CInt 41]); ("Name", [CStr "Asha"; CStr "Ravi"])].


Definition gaps_frame : DataFrame :=
  mkDataFrame 2
    [("Name", [CStr "Asha"; CNaN]); ("Headcount", [CNaN; CInt 2])].

(** * Properties *)

(** ** Column operations *)

Lemma mask_rows_map {A : Type} (p : A -> bool) (df : list A) :
  mask_rows df (map p df) = filter p df.
Proof.
  induction df as [|r df IH]; simpl; [reflexivity|].
  rewrite IH. reflexivity.
Qed.

Lemma isin_map {A : Type} (f : A -> string) (values : list string) (df : list A) :
  isin (map f df) values = map (fun r => existsb (String.eqb (f r)) values) df.
Proof. unfold isin. apply map_map. Qed.

Lemma sum_app (l1 l2 : list Z) : sum (l1 ++ l2)%list = sum l1 + sum l2.
Proof.
  induction l1 as [|z l1 IH]; simpl; [reflexivity|].
  unfold sum in *. simpl. rewrite IH. lia.
Qed.

Lemma filter_length_split {A : Type} (p : A -> bool) (l : list A) :
  (List.length (filter p l) + List.length (filter (fun x => negb (p x)) l)
   = List.length l)%nat.
Proof.
  induction l as [|x l IH]; simpl; [reflexivity|].
  destruct (p x); simpl; lia.
Qed.

Lemma filter_subsequence {A : Type} (p : A -> bool) (l : list A) :
  Spec.subsequence (filter p l) l.
Proof.
  induction l as [|x l IH]; simpl.
  - constructor.
  - destruct (p x); constructor; exact IH.
Qed.

(** ** Dashboard figures *)

Lemma invites_sent_filter (t : GuestTable) :
  invites_sent t = Z.of_nat (List.length (filter Invite_Given t)).
Proof.
  unfold invites_sent, len. rewrite map_map, mask_rows_map.
  do 2 f_equal. apply filter_ext. intros r. destruct (Invite_Given r); reflexivity.
Qed.

(** C6.  Invites sent and pending invites add up to the number of records;
    [invites_sent] counts the records whose invite is given, [pending] those
    whose invite is not, and [total_families] all of them. *)
Theorem pending_invariant (t : GuestTable) :
  invites_sent t + pending t = total_families t
  /\ invites_sent t = Spec.invitesSent t
  /\ pending t = Spec.pendingCount t
  /\ total_families t = Spec.familyCount t.
Proof.
  pose proof (filter_length_split Invite_Given t) as Hsplit.
  unfold pending, Spec.pendingCount, Spec.invitesSent, Spec.familyCount,
    total_families, len.
  rewrite invites_sent_filter.
  repeat split; lia.
Qed.

(** ** Catering *)

Lemma plates_filter (events : list string) (t : GuestTable) :
  sum (map Headcount (mask_rows t (isin (map Event t) events)))
  = sum (map Headcount (filter (fun r => existsb (String.eqb (Event r)) events) t)).
Proof. rewrite isin_map, mask_rows_map. reflexivity. Qed.

Lemma plates_insert (events : list string) (t1 t2 : GuestTable) (r : GuestRecord) :
  existsb (String.eqb (Event r)) events = true ->
  sum (map Headcount
         (filter (fun r => existsb (String.eqb (Event r)) events) (t1 ++ r :: t2)))
  = sum (map Headcount
           (filter (fun r => existsb (String.eqb (Event r)) events) (t1 ++ t2)))
    + Headcount r.
Proof.
  intros Hr. rewrite !filter_app, !map_app, !sum_app. simpl. rewrite Hr.
  simpl. unfold sum at 2. simpl. fold (sum (map Headcount
    (filter (fun r => existsb (String.eqb (Event r)) events) t2))). lia.
Qed.

(** C4.  Reception plates are the head counts of the records for the
    reception or for both events, wedding plates those of the records for the
    wedding or for both; a record for both events adds its whole head count
    to each total, and one such record of five people gives five and five. *)
Theorem catering_double_count :
  (forall t, reception_total t = Spec.receptionPlates t)
  /\ (forall t, wedding_total t = Spec.weddingPlates t)
  /\ (forall t1 t2 n c ci m h ro i no,
        reception_total (t1 ++ mkGuest n c ci m "Both" h ro i no :: t2)
        = reception_total (t1 ++ t2) + h
        /\ wedding_total (t1 ++ mkGuest n c ci m "Both" h ro i no :: t2)
           = wedding_total (t1 ++ t2) + h)
  /\ (forall n c ci m ro i no,
        reception_total [mkGuest n c ci m "Both" 5 ro i no] = 5
        /\ wedding_total [mkGuest n c ci m "Both" 5 ro i no] = 5).
Proof.
  split; [|split; [|split]].
  - intros t. unfold reception_total, Spec.receptionPlates. rewrite plates_filter.
    unfold sum. do 2 f_equal. apply filter_ext. intros r. simpl.
    unfold Spec.event_is. rewrite orb_false_r. reflexivity.
  - intros t. unfold wedding_total, Spec.weddingPlates. rewrite plates_filter.
    unfold sum. do 2 f_equal. apply filter_ext. intros r. simpl.
    unfold Spec.event_is. rewrite orb_false_r. reflexivity.
  - intros. unfold reception_total, wedding_total. rewrite !plates_filter.
    split; apply (plates_insert _ t1 t2 (mkGuest n c ci m "Both" h ro i no));
      reflexivity.
  - intros. split; reflexivity.
Qed.

(** ** Rooms *)

Lemma room_df_filter (t : GuestTable) :
  room_df t = map room_columns (filter Spec.needs_room t).
Proof. unfold room_df. rewrite map_map, mask_rows_map. reflexivity. Qed.

(** C5.  The rooms view is the records that need at least one room, in the
    order of the table, each cut down to name, city, rooms and mobile. *)
Theorem rooms_filter (t : GuestTable) :
  room_df t = Spec.roomsNeeded t
  /\ exists kept : GuestTable,
      Spec.subsequence kept t
      /\ (forall r, In r kept <-> In r t /\ 0 < Rooms_Required r)
      /\ room_df t
         = map (fun r => mkRoomRow (Name r) (City r) (Rooms_Required r) (Mobile r))
             kept.
Proof.
  split.
  - rewrite room_df_filter. reflexivity.
  - exists (filter Spec.needs_room t). split; [|split].
    + apply filter_subsequence.
    + intros r. rewrite filter_In. unfold Spec.needs_room.
      rewrite Z.ltb_lt. reflexivity.
    + rewrite room_df_filter. reflexivity.
Qed.

(** C9.  When no record asks for a negative number of rooms, the total of
    rooms is the total over the rooms view. *)
Theorem total_rooms_room_df (t : GuestTable) :
  Forall (fun r => 0 <= Rooms_Required r) t ->
  total_rooms t = sum (map room_Rooms_Required (room_df t)).
Proof.
  intros Hpos. rewrite room_df_filter. unfold total_rooms.
  induction Hpos as [|r t Hr _ IH]; [reflexivity|].
  simpl. unfold Spec.needs_room at 1.
  destruct (0 <? Rooms_Required r) eqn:Hroom; unfold sum in *; simpl.
  - rewrite IH. reflexivity.
  - apply Z.ltb_ge in Hroom. rewrite IH. lia.
Qed.

Lemma total_rooms_room_df_sample :
  Forall (fun r => 0 <= Rooms_Required r) sample_table
  /\ total_rooms sample_table = sum (map room_Rooms_Required (room_df sample_table)).
Proof.
  assert (H : Forall (fun r => 0 <= Rooms_Required r) sample_table).
  { repeat constructor; simpl; lia. }
  split; [exact H | apply (total_rooms_room_df sample_table H)].
Defined.

(** ** The add-guest form *)

(** C8.  A submission with an empty name adds no record: the table and the
    file are as they were, nothing is written and nothing is shown. *)
Theorem add_guest_empty_name (f : Form) (s : Session) :
  name f = "" ->
  add_guest_form f s = (s, [])
  /\ data (fst (add_guest_form f s)) = data s
  /\ files (fst (add_guest_form f s)) = files s
  /\ snd (add_guest_form f s) = [].
Proof.
  intros Hname. unfold add_guest_form. rewrite Hname.
  rewrite andb_false_r. repeat split.
Qed.

Lemma add_guest_empty_name_sample :
  name empty_name_form = ""
  /\ add_guest_form empty_name_form (mkSession sample_table None)
     = (mkSession sample_table None, [])
  /\ data (fst (add_guest_form empty_name_form (mkSession sample_table None)))
     = sample_table
  /\ files (fst (add_guest_form empty_name_form (mkSession sample_table None)))
     = None
  /\ snd (add_guest_form empty_name_form (mkSession sample_table None)) = [].
Proof.
  split; [reflexivity|].
  exact (add_guest_empty_name empty_name_form (mkSession sample_table None) eq_refl).
Defined.

(** ** Export *)

Lemma encode_app (s1 s2 : string) :
  Utf8.encode (s1 ++ s2)%string = Utf8.encode s1 ++ Utf8.encode s2.
Proof.
  induction s1 as [|c s1 IH]; simpl; [reflexivity|].
  rewrite IH, app_assoc. reflexivity.
Qed.

Lemma encode_concat (l : list string) :
  Utf8.encode (String.concat "" l) = flat_map Utf8.encode l.
Proof.
  induction l as [|s l IH]; [reflexivity|].
  destruct l as [|s' l].
  - simpl. rewrite app_nil_r. reflexivity.
  - change (String.concat "" (s :: s' :: l))
      with (s ++ "" ++ String.concat "" (s' :: l))%string.
    rewrite encode_app. change ("" ++ ?x)%string with x.
    simpl flat_map in *. rewrite <- IH. reflexivity.
Qed.

(** C7.  The bytes offered for download are the bytes [save_data] leaves in
    the file: the same records, in the same order, in the same encoding. *)
Theorem export_matches_save (df : DataFrame) (fs : FileSystem) :
  save_data df fs = Some (convert_df df).
Proof.
  unfold save_data, convert_df, to_csv, to_csv_path.
  rewrite encode_concat. reflexivity.
Qed.

(** ** Frames *)

(** Evaluation of look-ups in a frame whose column names are known. *)
Ltac frame_simpl :=
  cbn [lookup columns nrows column_names has_column existsb map fst snd
       String.eqb Ascii.eqb Bool.eqb orb andb negb].

Lemma lookup_assign (c c' : string) (s : Series) (cs : list (string * Series)) :
  lookup c' (assign c s cs) = if (c =? c')%string then Some s else lookup c' cs.
Proof.
  induction cs as [|[c0 s0] cs IH]; simpl; [reflexivity|].
  destruct (c0 =? c)%string eqn:E0; simpl.
  - apply String.eqb_eq in E0. subst c0.
    destruct (c =? c')%string; reflexivity.
  - rewrite IH. destruct (c0 =? c')%string eqn:E1; [|reflexivity].
    destruct (c =? c')%string eqn:E2; [|reflexivity].
    apply String.eqb_eq in E1, E2. subst. rewrite String.eqb_refl in E0.
    discriminate.
Qed.

Lemma has_column_lookup (c : string) (df : DataFrame) :
  has_column c df
  = match lookup c (columns df) with Some _ => true | None => false end.
Proof.
  unfold has_column, column_names. induction (columns df) as [|[c0 s0] cs IH];
    simpl; [reflexivity|].
  rewrite (String.eqb_sym c c0). destruct (c0 =? c)%string; simpl; [reflexivity|].
  exact IH.
Qed.

Lemma complete_column_lookup (df : DataFrame) (c c' : string) :
  lookup c' (columns (complete_column df c))
  = match lookup c' (columns df) with
    | Some s => Some s
    | None =>
        if (c =? c')%string then Some (repeat (default_of c) (nrows df)) else None
    end.
Proof.
  unfold complete_column. rewrite has_column_lookup.
  destruct (lookup c (columns df)) eqn:Hc.
  - destruct (lookup c' (columns df)) eqn:Hc'; [reflexivity|].
    destruct (c =? c')%string eqn:E; [|reflexivity].
    apply String.eqb_eq in E. congruence.
  - simpl. rewrite lookup_assign. destruct (c =? c')%string eqn:E.
    + apply String.eqb_eq in E. subst c'. rewrite Hc. reflexivity.
    + destruct (lookup c' (columns df)); reflexivity.
Qed.

Lemma complete_column_nrows (df : DataFrame) (c : string) :
  nrows (complete_column df c) = nrows df.
Proof. unfold complete_column. destruct (has_column c df); reflexivity. Qed.

Lemma fold_complete_nrows (cols : list string) (df : DataFrame) :
  nrows (fold_left complete_column cols df) = nrows df.
Proof.
  revert df. induction cols as [|c cols IH]; intros df; simpl; [reflexivity|].
  rewrite IH. apply complete_column_nrows.
Qed.

Lemma fold_complete_lookup (cols : list string) (df : DataFrame) (c' : string) :
  lookup c' (columns (fold_left complete_column cols df))
  = match lookup c' (columns df) with
    | Some s => Some s
    | None =>
        if existsb (String.eqb c') cols
        then Some (repeat (default_of c') (nrows df)) else None
    end.
Proof.
  revert df. induction cols as [|c cols IH]; intros df; simpl.
  - destruct (lookup c' (columns df)); reflexivity.
  - rewrite IH, complete_column_lookup, complete_column_nrows.
    destruct (lookup c' (columns df)); [reflexivity|].
    rewrite (String.eqb_sym c' c).
    destruct (c =? c')%string eqn:E; simpl; [|reflexivity].
    apply String.eqb_eq in E. subst c'. reflexivity.
Qed.

Lemma complete_column_of (df : DataFrame) (c : string) :
  In c COLUMNS ->
  lookup c (columns (complete df))
  = Some (match lookup c (columns df) with
          | Some s => s
          | None => repeat (default_of c) (nrows df)
          end).
Proof.
  intros Hin. unfold complete. rewrite fold_complete_lookup.
  destruct (lookup c (columns df)); [reflexivity|].
  replace (existsb (String.eqb c) COLUMNS) with true; [reflexivity|].
  symmetry. apply existsb_exists. exists c. split; [exact Hin|].
  apply String.eqb_refl.
Qed.

Lemma coerce_coerced (df : DataFrame) :
  (forall c, In c COLUMNS -> lookup c (columns df) <> None) ->
  coerce df = coerced df.
Proof.
  intros Hall.
  assert (H1 := Hall "Name"). assert (H2 := Hall "Category").
  assert (H3 := Hall "City"). assert (H4 := Hall "Mobile").
  assert (H5 := Hall "Event"). assert (H6 := Hall "Headcount").
  assert (H7 := Hall "Rooms Required"). assert (H8 := Hall "Invite Given").
  assert (H9 := Hall "Notes"). clear Hall.
  unfold coerced, column.
  destruct (lookup "Name" (columns df)) as [s1|] eqn:E1; [clear H1|exfalso; apply H1; simpl; tauto].
  destruct (lookup "Category" (columns df)) as [s2|] eqn:E2; [clear H2|exfalso; apply H2; simpl; tauto].
  destruct (lookup "City" (columns df)) as [s3|] eqn:E3; [clear H3|exfalso; apply H3; simpl; tauto].
  destruct (lookup "Mobile" (columns df)) as [s4|] eqn:E4; [clear H4|exfalso; apply H4; simpl; tauto].
  destruct (lookup "Event" (columns df)) as [s5|] eqn:E5; [clear H5|exfalso; apply H5; simpl; tauto].
  destruct (lookup "Headcount" (columns df)) as [s6|] eqn:E6; [clear H6|exfalso; apply H6; simpl; tauto].
  destruct (lookup "Rooms Required" (columns df)) as [s7|] eqn:E7; [clear H7|exfalso; apply H7; simpl; tauto].
  destruct (lookup "Invite Given" (columns df)) as [s8|] eqn:E8; [clear H8|exfalso; apply H8; simpl; tauto].
  destruct (lookup "Notes" (columns df)) as [s9|] eqn:E9; [clear H9|exfalso; apply H9; simpl; tauto].
  unfold coerce, text_cols. cbn [fold_left].
  unfold coerce_text_column, coerce_int_column, coerce_bool_column, setitem.
  cbn [columns nrows].
  repeat (rewrite ?lookup_assign, ?E1, ?E2, ?E3, ?E4, ?E5, ?E6, ?E7, ?E8, ?E9;
          cbn [columns nrows String.eqb Ascii.eqb Bool.eqb]).
  destruct (astype_int (fillna (CInt 1) s6)) as [h|e]; [|reflexivity].
  cbn [bind columns nrows].
  repeat (rewrite ?lookup_assign, ?E1, ?E2, ?E3, ?E4, ?E5, ?E6, ?E7, ?E8, ?E9;
          cbn [columns nrows String.eqb Ascii.eqb Bool.eqb]).
  destruct (astype_int (fillna (CInt 0) s7)) as [r|e]; [|reflexivity].
  cbn [bind columns nrows].
  repeat (rewrite ?lookup_assign, ?E1, ?E2, ?E3, ?E4, ?E5, ?E6, ?E7, ?E8, ?E9;
          cbn [columns nrows String.eqb Ascii.eqb Bool.eqb]).
  unfold select, COLUMNS, getitem. cbn [mapM columns nrows].
  repeat (rewrite ?lookup_assign, ?E1, ?E2, ?E3, ?E4, ?E5, ?E6, ?E7, ?E8, ?E9;
          cbn [bind columns nrows String.eqb Ascii.eqb Bool.eqb]).
  reflexivity.
Qed.


Lemma load_frame_coerced (df : DataFrame) :
  load_frame (Some df) = coerced (complete (migrate df)).
Proof.
  unfold load_frame. apply coerce_coerced. intros c Hin.
  rewrite (complete_column_of _ c Hin). discriminate.
Qed.

Lemma column_complete (df : DataFrame) (c : string) :
  In c COLUMNS ->
  column (complete df) c
  = match lookup c (columns df) with
    | Some s => s
    | None => repeat (default_of c) (nrows df)
    end.
Proof. intros Hin. unfold column. rewrite (complete_column_of _ c Hin). reflexivity. Qed.

Lemma complete_nrows (df : DataFrame) : nrows (complete df) = nrows df.
Proof. apply fold_complete_nrows. Qed.

Lemma migrate_legacy (df : DataFrame) (flags : Series) :
  lookup "Accommodation Needed" (columns df) = Some flags ->
  lookup "Rooms Required" (columns df) = None ->
  migrate df = setitem df "Rooms Required" (map rooms_of_flag flags).
Proof.
  intros Hflag Hrooms. unfold migrate. rewrite !has_column_lookup, Hflag, Hrooms.
  reflexivity.
Qed.

Lemma migrate_same (df : DataFrame) :
  lookup "Accommodation Needed" (columns df) = None
  \/ lookup "Rooms Required" (columns df) <> None ->
  migrate df = df.
Proof.
  intros H. unfold migrate. rewrite !has_column_lookup.
  destruct (lookup "Accommodation Needed" (columns df)); [|reflexivity].
  destruct (lookup "Rooms Required" (columns df)); [reflexivity|].
  destruct H as [H|H]; [discriminate | contradiction].
Qed.

Lemma migrate_nrows (df : DataFrame) : nrows (migrate df) = nrows df.
Proof.
  unfold migrate.
  destruct (has_column "Accommodation Needed" df && negb (has_column "Rooms Required" df));
    [|reflexivity].
  destruct (lookup "Accommodation Needed" (columns df)); reflexivity.
Qed.

Lemma migrate_lookup_other (df : DataFrame) (c : string) :
  c <> "Rooms Required" ->
  lookup c (columns (migrate df)) = lookup c (columns df).
Proof.
  intros Hc. unfold migrate.
  destruct (has_column "Accommodation Needed" df && negb (has_column "Rooms Required" df));
    [|reflexivity].
  destruct (lookup "Accommodation Needed" (columns df)); [|reflexivity].
  simpl. rewrite lookup_assign.
  destruct ("Rooms Required" =? c)%string eqn:E; [|reflexivity].
  apply String.eqb_eq in E. congruence.
Qed.

(** ** Conversions *)

Lemma astype_int_ints (v : cell) (s : Series) :
  Forall is_int s -> astype_int (fillna v s) = Ok s.
Proof.
  unfold astype_int. induction 1 as [|x s [z ->] _ IH]; [reflexivity|].
  simpl in *. rewrite IH. reflexivity.
Qed.

Lemma rooms_of_flag_ints (flags : Series) : Forall is_int (map rooms_of_flag flags).
Proof.
  apply Forall_forall. intros x Hx. apply in_map_iff in Hx.
  destruct Hx as [y [<- _]]. unfold rooms_of_flag.
  destruct (Py.eq_True y); eexists; reflexivity.
Qed.

Lemma repeat_ints (z : Z) (n : nat) : Forall is_int (repeat (CInt z) n).
Proof.
  apply Forall_forall. intros x Hx. apply repeat_spec in Hx. subst x.
  eexists; reflexivity.
Qed.

Lemma text_of_repeat (n : nat) : text_of (repeat (CStr "") n) = repeat (CStr "") n.
Proof. unfold text_of, astype_str, fillna. rewrite !map_repeat. reflexivity. Qed.

Lemma astype_bool_repeat (n : nat) :
  astype_bool (fillna (CBool false) (repeat (CBool false) n)) = repeat (CBool false) n.
Proof. unfold astype_bool, fillna. rewrite !map_repeat. reflexivity. Qed.

(** ** Loading old files *)

Lemma headcount_converts_complete (df : DataFrame) :
  headcount_converts df ->
  exists h, astype_int (fillna (CInt 1) (column (complete (migrate df)) "Headcount")) = Ok h.
Proof.
  unfold headcount_converts. intros H.
  rewrite column_complete by (simpl; tauto).
  rewrite migrate_lookup_other by discriminate. rewrite migrate_nrows.
  destruct (lookup "Headcount" (columns df)); [exact H|].
  eexists. apply astype_int_ints. apply repeat_ints.
Qed.

Lemma load_frame_legacy (df : DataFrame) (flags : Series) :
  lookup "Accommodation Needed" (columns df) = Some flags ->
  lookup "Rooms Required" (columns df) = None ->
  load_frame (Some df)
  = do h <- astype_int (fillna (CInt 1) (column (complete (migrate df)) "Headcount"));
    Ok (mkDataFrame (nrows df)
          [("Name", text_of (column (complete (migrate df)) "Name"));
           ("Category", text_of (column (complete (migrate df)) "Category"));
           ("City", text_of (column (complete (migrate df)) "City"));
           ("Mobile", text_of (column (complete (migrate df)) "Mobile"));
           ("Event", text_of (column (complete (migrate df)) "Event"));
           ("Headcount", h);
           ("Rooms Required", map rooms_of_flag flags);
           ("Invite Given",
            astype_bool (fillna (CBool false)
                           (column (complete (migrate df)) "Invite Given")));
           ("Notes", text_of (column (complete (migrate df)) "Notes"))]).
Proof.
  intros Hflag Hrooms. rewrite load_frame_coerced. unfold coerced.
  rewrite complete_nrows, migrate_nrows.
  replace (column (complete (migrate df)) "Rooms Required")
    with (map rooms_of_flag flags).
  - rewrite (astype_int_ints _ _ (rooms_of_flag_ints flags)). reflexivity.
  - rewrite column_complete by (simpl; tauto).
    rewrite (migrate_legacy df flags Hflag Hrooms). simpl.
    rewrite lookup_assign. reflexivity.
Qed.

Lemma has_column_false (c : string) (df : DataFrame) :
  has_column c df = false <-> lookup c (columns df) = None.
Proof.
  rewrite has_column_lookup. destruct (lookup c (columns df)); split;
    intros H; (reflexivity || discriminate).
Qed.

Lemma Ok_inj {A : Type} (a b : A) : Ok a = Ok b -> a = b.
Proof. intros H. injection H as H. exact H. Qed.

(** C2.  A stored table with a boolean "Accommodation Needed" column and no
    "Rooms Required" column loads with one room where the flag is true and
    none where it is false, and without the old column; it does load when
    the stored head counts convert. *)
Theorem migration_of_flags (df : DataFrame) (flags : list bool) :
  lookup "Accommodation Needed" (columns df) = Some (map CBool flags) ->
  has_column "Rooms Required" df = false ->
  (forall t, load_frame (Some df) = Ok t ->
     lookup "Rooms Required" (columns t)
     = Some (map (fun b : bool => CInt (if b then 1 else 0)) flags)
     /\ has_column "Accommodation Needed" t = false
     /\ column_names t = COLUMNS)
  /\ (headcount_converts df -> exists t, load_frame (Some df) = Ok t).
Proof.
  intros Hflag Hrooms. apply has_column_false in Hrooms.
  rewrite (load_frame_legacy df _ Hflag Hrooms). split.
  - intros t Ht.
    destruct (astype_int (fillna (CInt 1) (column (complete (migrate df)) "Headcount")))
      as [h|e]; [|discriminate].
    cbn [bind] in Ht.
    apply Ok_inj in Ht. subst t.
    split; [|split].
    + frame_simpl. rewrite map_map. f_equal. apply map_ext. intros [|]; reflexivity.
    + frame_simpl. reflexivity.
    + frame_simpl. reflexivity.
  - intros Hconv. destruct (headcount_converts_complete df Hconv) as [h Hh].
    rewrite Hh. eexists. reflexivity.
Qed.

Lemma migration_of_flags_sample :
  lookup "Accommodation Needed" (columns legacy_frame)
  = Some (map CBool [true; false; true])
  /\ has_column "Rooms Required" legacy_frame = false
  /\ (forall t, load_frame (Some legacy_frame) = Ok t ->
        lookup "Rooms Required" (columns t) = Some [CInt 1; CInt 0; CInt 1]
        /\ has_column "Accommodation Needed" t = false
        /\ column_names t = COLUMNS)
  /\ (headcount_converts legacy_frame ->
      exists t, load_frame (Some legacy_frame) = Ok t).
Proof.
  split; [reflexivity|]. split; [reflexivity|].
  exact (migration_of_flags legacy_frame [true; false; true] eq_refl eq_refl).
Defined.

(** C10.  In the migration every value of the old flag that does not equal
    [True] gives zero rooms: the new column holds 1 where the value equals
    [True] and 0 elsewhere, its conversion to integers does not raise, and
    the loaded table keeps it. *)
Theorem migration_of_other_values (df : DataFrame) (flags : Series) :
  lookup "Accommodation Needed" (columns df) = Some flags ->
  has_column "Rooms Required" df = false ->
  lookup "Rooms Required" (columns (migrate df)) = Some (map rooms_of_flag flags)
  /\ astype_int (fillna (CInt 0) (map rooms_of_flag flags))
     = Ok (map rooms_of_flag flags)
  /\ (forall t, load_frame (Some df) = Ok t ->
        lookup "Rooms Required" (columns t) = Some (map rooms_of_flag flags))
  /\ (headcount_converts df -> exists t, load_frame (Some df) = Ok t)
  /\ (forall i x, nth_error flags i = Some x -> Py.eq_True x = false ->
        nth_error (map rooms_of_flag flags) i = Some (CInt 0)).
Proof.
  intros Hflag Hrooms. apply has_column_false in Hrooms.
  split; [|split; [|split; [|split]]].
  - rewrite (migrate_legacy df flags Hflag Hrooms). frame_simpl.
    unfold setitem. frame_simpl. rewrite lookup_assign. reflexivity.
  - apply astype_int_ints, rooms_of_flag_ints.
  - intros t. rewrite (load_frame_legacy df _ Hflag Hrooms).
    destruct (astype_int (fillna (CInt 1) (column (complete (migrate df)) "Headcount")))
      as [h|e]; [|discriminate].
    intros Ht. apply Ok_inj in Ht. subst t. reflexivity.
  - intros Hconv. rewrite (load_frame_legacy df _ Hflag Hrooms).
    destruct (headcount_converts_complete df Hconv) as [h Hh].
    rewrite Hh. eexists. reflexivity.
  - intros i x Hx Hfalse. rewrite nth_error_map, Hx. simpl.
    unfold rooms_of_flag. rewrite Hfalse. reflexivity.
Qed.

Lemma migration_of_other_values_sample :
  lookup "Accommodation Needed" (columns mixed_legacy_frame) = Some mixed_flags
  /\ has_column "Rooms Required" mixed_legacy_frame = false
  /\ lookup "Rooms Required" (columns (migrate mixed_legacy_frame))
     = Some [CInt 1; CInt 0; CInt 0; CInt 0; CInt 1; CInt 0]
  /\ astype_int (fillna (CInt 0) (map rooms_of_flag mixed_flags))
     = Ok [CInt 1; CInt 0; CInt 0; CInt 0; CInt 1; CInt 0].
Proof.
  split; [reflexivity|]. split; [reflexivity|].
  pose proof (migration_of_other_values mixed_legacy_frame mixed_flags
                eq_refl eq_refl) as [Hmig [Hint _]].
  split; [exact Hmig | exact Hint].
Defined.

(** ** Missing columns *)

Lemma coerced_default_column (d : DataFrame) (c : string) (t : DataFrame) :
  In c COLUMNS ->
  column d c = repeat (default_of c) (nrows d) ->
  coerced d = Ok t ->
  lookup c (columns t) = Some (repeat (default_of c) (nrows d)).
Proof.
  intros Hin Hcol. unfold coerced.
  destruct (astype_int (fillna (CInt 1) (column d "Headcount"))) as [h|e] eqn:Hh;
    [|discriminate].
  destruct (astype_int (fillna (CInt 0) (column d "Rooms Required"))) as [r|e] eqn:Hr;
    [|discriminate].
  cbn [bind]. intros Ht. apply Ok_inj in Ht. subst t.
  unfold COLUMNS in Hin. cbn [In] in Hin.
  destruct Hin as [<-|[<-|[<-|[<-|[<-|[<-|[<-|[<-|[<-|[]]]]]]]]]]; frame_simpl;
    rewrite ?Hcol; try (f_equal; apply text_of_repeat).
  - rewrite Hcol in Hh. change (default_of "Headcount") with (CInt 1) in Hh.
    rewrite (astype_int_ints _ _ (repeat_ints 1 _)) in Hh.
    apply Ok_inj in Hh. subst h. reflexivity.
  - rewrite Hcol in Hr. change (default_of "Rooms Required") with (CInt 0) in Hr.
    rewrite (astype_int_ints _ _ (repeat_ints 0 _)) in Hr.
    apply Ok_inj in Hr. subst r. reflexivity.
  - f_equal. apply astype_bool_repeat.
Qed.

Lemma names_only_loads (names : Series) :
  load_frame (Some (mkDataFrame (List.length names) [("Name", names)]))
  = Ok (mkDataFrame (List.length names)
          [("Name", text_of names);
           ("Category", repeat (CStr "") (List.length names));
           ("City", repeat (CStr "") (List.length names));
           ("Mobile", repeat (CStr "") (List.length names));
           ("Event", repeat (CStr "") (List.length names));
           ("Headcount", repeat (CInt 1) (List.length names));
           ("Rooms Required", repeat (CInt 0) (List.length names));
           ("Invite Given", repeat (CBool false) (List.length names));
           ("Notes", repeat (CStr "") (List.length names))]).
Proof.
  rewrite load_frame_coerced. unfold coerced.
  rewrite complete_nrows, migrate_nrows.
  rewrite !column_complete by (unfold COLUMNS; cbn [In]; tauto).
  rewrite migrate_same by (left; reflexivity).
  frame_simpl.
  change (default_of "Headcount") with (CInt 1).
  change (default_of "Rooms Required") with (CInt 0).
  rewrite !(astype_int_ints _ _ (repeat_ints _ _)).
  cbn [bind]. rewrite astype_bool_repeat, !text_of_repeat. reflexivity.
Qed.

Lemma rooms_converts_complete (df : DataFrame) :
  rooms_converts df ->
  exists r,
    astype_int (fillna (CInt 0) (column (complete (migrate df)) "Rooms Required"))
    = Ok r.
Proof.
  unfold rooms_converts. intros H.
  rewrite column_complete by (unfold COLUMNS; cbn [In]; tauto).
  destruct (lookup "Rooms Required" (columns df)) as [s|] eqn:Hrooms.
  - rewrite migrate_same by (right; congruence). rewrite Hrooms. exact H.
  - destruct (lookup "Accommodation Needed" (columns df)) as [flags|] eqn:Hflag.
    + rewrite (migrate_legacy df flags Hflag Hrooms). unfold setitem.
      frame_simpl. rewrite lookup_assign. frame_simpl.
      eexists. apply astype_int_ints, rooms_of_flag_ints.
    + rewrite migrate_same by (left; exact Hflag). rewrite Hrooms.
      eexists. apply astype_int_ints. apply (repeat_ints 0).
Qed.

Lemma load_frame_ok (df : DataFrame) :
  headcount_converts df -> rooms_converts df ->
  exists t, load_frame (Some df) = Ok t.
Proof.
  intros Hh Hr. rewrite load_frame_coerced. unfold coerced.
  destruct (headcount_converts_complete df Hh) as [h ->].
  destruct (rooms_converts_complete df Hr) as [r ->].
  eexists. reflexivity.
Qed.

(** C3 (as amended).  A standard column that the stored table lacks is
    filled on load with its default in every row - 1 for the head count, 0
    for the rooms, false for the invite, the empty text for the others -
    the rooms provided the stored table has no "Accommodation Needed" column
    either.  The table loads when the stored numbers convert, and a stored
    table with names only loads with the defaults in every other column. *)
Theorem missing_columns_completed (df : DataFrame) (c : string) :
  In c COLUMNS ->
  has_column c df = false ->
  (c = "Rooms Required" -> has_column "Accommodation Needed" df = false) ->
  (forall t, load_frame (Some df) = Ok t ->
     lookup c (columns t) = Some (repeat (default_of c) (nrows df)))
  /\ (headcount_converts df -> rooms_converts df ->
      exists t, load_frame (Some df) = Ok t)
  /\ default_of "Headcount" = CInt 1
  /\ default_of "Rooms Required" = CInt 0
  /\ default_of "Invite Given" = CBool false
  /\ (forall col, In col text_cols -> default_of col = CStr "")
  /\ (forall names : Series,
        load_frame (Some (mkDataFrame (List.length names) [("Name", names)]))
        = Ok (mkDataFrame (List.length names)
                [("Name", text_of names);
                 ("Category", repeat (CStr "") (List.length names));
                 ("City", repeat (CStr "") (List.length names));
                 ("Mobile", repeat (CStr "") (List.length names));
                 ("Event", repeat (CStr "") (List.length names));
                 ("Headcount", repeat (CInt 1) (List.length names));
                 ("Rooms Required", repeat (CInt 0) (List.length names));
                 ("Invite Given", repeat (CBool false) (List.length names));
                 ("Notes", repeat (CStr "") (List.length names))])).
Proof.
  intros Hin Hmissing Hflag.
  split; [|split; [|split; [|split; [|split; [|split]]]]]; try reflexivity.
  - intros t. rewrite load_frame_coerced. intros Ht.
    rewrite <- migrate_nrows, <- complete_nrows.
    apply (coerced_default_column _ c t Hin); [|exact Ht].
    rewrite column_complete by exact Hin.
    apply has_column_false in Hmissing.
    destruct (String.eqb_spec c "Rooms Required") as [Hc|Hc].
    + rewrite migrate_same by (left; apply has_column_false; auto).
      rewrite Hmissing, complete_nrows. reflexivity.
    + rewrite (migrate_lookup_other df c Hc), Hmissing.
      rewrite complete_nrows, migrate_nrows. reflexivity.
  - apply load_frame_ok.
  - intros col Hcol. unfold text_cols in Hcol. cbn [In] in Hcol.
    destruct Hcol as [<-|[<-|[<-|[<-|[<-|[<-|[]]]]]]]; reflexivity.
  - apply names_only_loads.
Qed.

Lemma missing_columns_completed_sample :
  In "Headcount" COLUMNS
  /\ has_column "Headcount" names_frame = false
  /\ (forall t, load_frame (Some names_frame) = Ok t ->
        lookup "Headcount" (columns t) = Some [CInt 1; CInt 1]).
Proof.
  assert (Hin : In "Headcount" COLUMNS) by (unfold COLUMNS; cbn [In]; tauto).
  split; [exact Hin|]. split; [reflexivity|].
  apply (missing_columns_completed names_frame "Headcount" Hin eq_refl).
  discriminate.
Defined.

Lemma missing_rooms_not_default :
  ~ (forall (df : DataFrame) (c : string) (t : DataFrame),
       In c COLUMNS -> has_column c df = false ->
       load_frame (Some df) = Ok t ->
       lookup c (columns t) = Some (repeat (default_of c) (nrows df))).
Proof.
  intros H.
  assert (Hin : In "Rooms Required" COLUMNS) by (unfold COLUMNS; cbn [In]; tauto).
  assert (Hload : exists t, load_frame (Some legacy_frame) = Ok t
            /\ lookup "Rooms Required" (columns t) = Some [CInt 1; CInt 0; CInt 1]).
  { vm_compute. eexists. split; reflexivity. }
  destruct Hload as [t [Hload Hrooms]].
  specialize (H legacy_frame "Rooms Required" t Hin eq_refl Hload).
  rewrite Hrooms in H. vm_compute in H. discriminate H.
Qed.

(** ** Saving and loading again *)

(** A saved table whose mobile numbers are not all digits comes back as it
    was. *)
Example round_trip_sample (fs : FileSystem) :
  load_data (save_data (to_frame sample_table) fs) = Ok (to_frame sample_table).
Proof. unfold save_data. vm_compute. reflexivity. Qed.

(** C1 (fails on the code).  Saving the one-record table of [asha] and
    loading it again gives the table of [asha_reloaded]: the mobile number
    was read as a number and has lost its leading zero. *)
Theorem round_trip_loses_leading_zero (fs : FileSystem) :
  load_data (save_data (to_frame [asha]) fs) = Ok (to_frame [asha_reloaded])
  /\ load_data (save_data (to_frame [asha]) fs) <> Ok (to_frame [asha]).
Proof.
  unfold save_data.
  assert (H : load_data (Some (to_csv_path (to_frame [asha])))
              = Ok (to_frame [asha_reloaded])) by (vm_compute; reflexivity).
  split; [exact H|]. rewrite H. vm_compute. discriminate.
Qed.

(** * Further properties *)

(** ** Equality of tables *)

Lemma GuestRecord_eqb_eq (a b : GuestRecord) : GuestRecord_eqb a b = true <-> a = b.
Proof.
  unfold GuestRecord_eqb. split.
  - intros H. repeat (apply andb_prop in H; destruct H as [H ?]).
    destruct a, b; cbn [Name Category City Mobile Event Headcount Rooms_Required
                         Invite_Given Notes] in *.
    repeat match goal with
           | E : (_ =? _)%string = true |- _ => apply String.eqb_eq in E
           | E : (_ =? _) = true |- _ => apply Z.eqb_eq in E
           | E : Bool.eqb _ _ = true |- _ => apply Bool.eqb_prop in E
           end.
    subst. reflexivity.
  - intros <-. rewrite !String.eqb_refl, !Z.eqb_refl, Bool.eqb_reflx. reflexivity.
Qed.

Lemma equals_eq (df other : GuestTable) : equals df other = true <-> df = other.
Proof.
  revert other. induction df as [|a df IH]; intros [|b other]; cbn [equals];
    try (split; [discriminate|discriminate]); [tauto|].
  rewrite andb_true_iff, GuestRecord_eqb_eq, IH. split.
  - intros [-> ->]. reflexivity.
  - intros H. injection H as -> ->. split; reflexivity.
Qed.

Lemma to_csv_path_convert (df : DataFrame) : to_csv_path df = convert_df df.
Proof. unfold convert_df, to_csv, to_csv_path. rewrite encode_concat. reflexivity. Qed.

(** ** Runs of the script *)

Lemma add_guest_form_accepts (f : Form) (s : Session) :
  submitted f = true -> name f <> "" ->
  add_guest_form f s
  = (mkSession (data s ++ [new_entry f])
       (Some (convert_df (to_frame (data s ++ [new_entry f])))),
     [WriteFile (convert_df (to_frame (data s ++ [new_entry f])));
      Toast (name f); Rerun]).
Proof.
  intros Hsub Hname. unfold add_guest_form. rewrite Hsub.
  apply String.eqb_neq in Hname. rewrite Hname. cbn [andb negb].
  unfold save_data, concat. rewrite to_csv_path_convert. reflexivity.
Qed.

Lemma add_guest_form_rejects (f : Form) (s : Session) :
  submitted f && negb (name f =? "")%string = false ->
  add_guest_form f s = (s, []).
Proof. intros H. unfold add_guest_form. rewrite H. reflexivity. Qed.

(** X1.  The form changes something exactly when it is submitted with a
    name: otherwise the session is left as it is and nothing is written or
    shown. *)
Theorem add_guest_form_noop_iff (f : Form) (s : Session) :
  add_guest_form f s = (s, []) <-> submitted f = false \/ name f = "".
Proof.
  split.
  - intros H. destruct (submitted f) eqn:Hsub; [|left; reflexivity].
    right. destruct (String.eqb_spec (name f) "") as [Hname|Hname]; [exact Hname|].
    rewrite (add_guest_form_accepts f s Hsub Hname) in H. discriminate H.
  - intros H. apply add_guest_form_rejects.
    destruct H as [-> | ->]; [reflexivity|]. apply andb_false_r.
Qed.

(** X2.  An accepted guest is the last record of the table, behind the
    records that were there, which keep their order; the table has one
    record more and the file holds the export of the new table. *)
Theorem add_guest_form_appends (f : Form) (s : Session) :
  submitted f = true -> name f <> "" ->
  let s' := fst (add_guest_form f s) in
  data s' = data s ++ [new_entry f]
  /\ firstn (List.length (data s)) (data s') = data s
  /\ nth_error (data s') (List.length (data s)) = Some (new_entry f)
  /\ List.length (data s') = S (List.length (data s))
  /\ in_sync s'.
Proof.
  intros Hsub Hname. cbv zeta. rewrite (add_guest_form_accepts f s Hsub Hname).
  cbn [fst data]. repeat split.
  - rewrite firstn_app, Nat.sub_diag, firstn_all. cbn [firstn]. apply app_nil_r.
  - rewrite nth_error_app2 by apply Nat.le_refl. rewrite Nat.sub_diag. reflexivity.
  - rewrite length_app. cbn [List.length]. apply Nat.add_1_r.
Qed.

Lemma update_table_same (e : GuestTable) (s : Session) :
  data s = e -> update_table e s = (s, []).
Proof.
  intros H. unfold update_table.
  replace (equals (data s) e) with true; [reflexivity|].
  symmetry. apply equals_eq. exact H.
Qed.

Lemma update_table_changed (e : GuestTable) (s : Session) :
  data s <> e ->
  update_table e s
  = (mkSession e (Some (convert_df (to_frame e))),
     [WriteFile (convert_df (to_frame e)); Rerun]).
Proof.
  intros H. unfold update_table.
  destruct (equals (data s) e) eqn:E.
  - apply equals_eq in E. contradiction.
  - cbn [negb]. unfold save_data. rewrite to_csv_path_convert. reflexivity.
Qed.

Lemma table_eq_dec (a b : GuestTable) : a = b \/ a <> b.
Proof.
  destruct (equals a b) eqn:E.
  - left. apply equals_eq. exact E.
  - right. intros H. apply equals_eq in H. congruence.
Qed.

(** X3.  After the editor step the table of the session is the edited table;
    the file is written, and a new run asked for, exactly when the edited
    table differs from the table of the session; doing the step again with
    the same edited table changes nothing, so the reruns come to an end. *)
Theorem update_table_settles (e : GuestTable) (s : Session) :
  data (fst (update_table e s)) = e
  /\ (snd (update_table e s) = [] <-> data s = e)
  /\ (data s <> e ->
      snd (update_table e s) = [WriteFile (convert_df (to_frame e)); Rerun]
      /\ files (fst (update_table e s)) = Some (convert_df (to_frame e)))
  /\ update_table e (fst (update_table e s)) = (fst (update_table e s), []).
Proof.
  destruct (table_eq_dec (data s) e) as [H|H].
  - rewrite (update_table_same e s H). cbn [fst snd]. repeat split; auto.
    + contradiction.
    + contradiction.
    + apply update_table_same. exact H.
  - rewrite (update_table_changed e s H). cbn [fst snd data files]. repeat split.
    + discriminate.
    + intros H'. contradiction.
    + apply update_table_same. reflexivity.
Qed.

Lemma run_accepted (f : Form) (e : GuestTable) (s : Session) :
  submitted f = true -> name f <> "" -> run f e s = add_guest_form f s.
Proof.
  intros Hsub Hname. unfold run.
  rewrite (add_guest_form_accepts f s Hsub Hname). reflexivity.
Qed.

Lemma run_rejected (f : Form) (e : GuestTable) (s : Session) :
  submitted f = false \/ name f = "" -> run f e s = update_table e s.
Proof.
  intros H. unfold run. rewrite add_guest_form_rejects.
  - cbn [reruns existsb]. destruct (update_table e s). reflexivity.
  - destruct H as [-> | ->]; [reflexivity|]. apply andb_false_r.
Qed.

Lemma run_cases (f : Form) (e : GuestTable) (s : Session) :
  (submitted f = true /\ name f <> "" /\ run f e s = add_guest_form f s)
  \/ ((submitted f = false \/ name f = "") /\ run f e s = update_table e s).
Proof.
  destruct (submitted f) eqn:Hsub.
  - destruct (String.eqb_spec (name f) "") as [Hname|Hname].
    + right. split; [right; exact Hname|]. apply run_rejected. right. exact Hname.
    + left. repeat split; [exact Hname|]. apply run_accepted; assumption.
  - right. split; [left; reflexivity|]. apply run_rejected. left. exact Hsub.
Qed.

(** X4.  A run keeps the file in step with the table: when the file held the
    export of the table before the run, it holds the export of the table
    after it; and a run that writes to the file leaves them in step
    whatever they were before. *)
Theorem run_keeps_in_sync (f : Form) (e : GuestTable) (s : Session) :
  (in_sync s -> in_sync (fst (run f e s)))
  /\ (snd (run f e s) <> [] -> in_sync (fst (run f e s))).
Proof.
  destruct (run_cases f e s) as [[Hsub [Hname ->]]|[Hrej ->]].
  - rewrite (add_guest_form_accepts f s Hsub Hname). cbn [fst snd].
    split; intros _; reflexivity.
  - destruct (table_eq_dec (data s) e) as [H|H].
    + rewrite (update_table_same e s H). cbn [fst snd].
      split; [auto|]. intros H'. contradiction.
    + rewrite (update_table_changed e s H). cbn [fst snd].
      split; intros _; reflexivity.
Qed.

(** X5.  A run changes the session only together with a request for a new
    run: a run that does not ask for one leaves the table and the file as
    they were and writes nothing, and then the table is the edited table. *)
Theorem run_without_rerun (f : Form) (e : GuestTable) (s : Session) :
  reruns (snd (run f e s)) = false ->
  run f e s = (s, []) /\ data s = e.
Proof.
  destruct (run_cases f e s) as [[Hsub [Hname ->]]|[Hrej ->]].
  - rewrite (add_guest_form_accepts f s Hsub Hname). cbn. discriminate.
  - destruct (table_eq_dec (data s) e) as [H|H].
    + rewrite (update_table_same e s H). auto.
    + rewrite (update_table_changed e s H). cbn. discriminate.
Qed.

(** ** The figures of the tabs *)

Lemma sum_cons (z : Z) (l : list Z) : sum (z :: l) = z + sum l.
Proof. reflexivity. Qed.

Lemma sum_one (z : Z) : sum [z] = z.
Proof. unfold sum. cbn [fold_right]. lia. Qed.

Lemma plates_app (events : list string) (t : GuestTable) (r : GuestRecord) :
  sum (map Headcount (mask_rows (t ++ [r]) (isin (map Event (t ++ [r])) events)))
  = sum (map Headcount (mask_rows t (isin (map Event t) events)))
    + (if in_events events r then Headcount r else 0).
Proof.
  rewrite !plates_filter, filter_app, map_app, sum_app. f_equal.
  cbn [filter]. unfold in_events. destruct (existsb _ events); cbn [map].
  - apply sum_one.
  - reflexivity.
Qed.

(** X6.  What one more guest does to the figures: the total of guests grows
    by the head count, the families by one, the invites sent or the pending
    ones by one according to the invite, the rooms by the rooms asked for,
    and each catering total by the head count when the event counts for
    it. *)
Theorem figures_after_concat (t : GuestTable) (r : GuestRecord) :
  total_pax (concat t [r]) = total_pax t + Headcount r
  /\ total_families (concat t [r]) = total_families t + 1
  /\ invites_sent (concat t [r])
     = invites_sent t + (if Invite_Given r then 1 else 0)
  /\ pending (concat t [r]) = pending t + (if Invite_Given r then 0 else 1)
  /\ total_rooms (concat t [r]) = total_rooms t + Rooms_Required r
  /\ reception_total (concat t [r])
     = reception_total t
       + (if in_events ["Reception"; "Both"] r then Headcount r else 0)
  /\ wedding_total (concat t [r])
     = wedding_total t
       + (if in_events ["Wedding (Mugurtham)"; "Both"] r then Headcount r else 0).
Proof.
  unfold concat.
  assert (Hfam : total_families (t ++ [r]) = total_families t + 1).
  { unfold total_families, len. rewrite length_app. cbn [List.length]. lia. }
  assert (Hsent : invites_sent (t ++ [r])
                  = invites_sent t + (if Invite_Given r then 1 else 0)).
  { rewrite !invites_sent_filter, filter_app, length_app. cbn [filter].
    destruct (Invite_Given r); cbn [List.length]; lia. }
  repeat split.
  - unfold total_pax. rewrite map_app, sum_app. cbn [map]. rewrite sum_one. reflexivity.
  - exact Hfam.
  - exact Hsent.
  - unfold pending. rewrite Hfam, Hsent. destruct (Invite_Given r); lia.
  - unfold total_rooms. rewrite map_app, sum_app. cbn [map]. rewrite sum_one. reflexivity.
  - apply plates_app.
  - apply plates_app.
Qed.

Lemma filter_length_le {A : Type} (p : A -> bool) (l : list A) :
  (List.length (filter p l) <= List.length l)%nat.
Proof.
  induction l as [|x l IH]; cbn [filter List.length]; [lia|].
  destruct (p x); cbn [List.length]; lia.
Qed.

(** X7.  The first tab shows its figures exactly when the table has a
    record; then there is at least one family, the invites sent and the
    pending ones lie between zero and the number of families, and they add
    up to it. *)
Theorem tab1_metrics (df : GuestTable) :
  (tab1 df = None <-> df = [])
  /\ (forall m, tab1 df = Some m ->
        1 <= metric_families m
        /\ 0 <= metric_invites_sent m <= metric_families m
        /\ 0 <= metric_pending m <= metric_families m
        /\ metric_invites_sent m + metric_pending m = metric_families m).
Proof.
  split.
  - unfold tab1. destruct df; cbn [empty]; split; intros H;
      (reflexivity || discriminate).
  - intros m. unfold tab1. destruct df as [|r df]; cbn [empty]; [discriminate|].
    intros H. injection H as <-.
    cbn [metric_families metric_invites_sent metric_pending].
    pose proof (filter_length_le Invite_Given (r :: df)) as Hle.
    unfold pending. rewrite invites_sent_filter. unfold total_families, len.
    cbn [List.length] in *. lia.
Qed.

Lemma heads_split (p q : GuestRecord -> bool) (t : GuestTable) :
  heads (fun r => p r || q r) t + heads (fun r => p r && q r) t
  = heads p t + heads q t.
Proof.
  unfold heads. induction t as [|r t IH]; [reflexivity|].
  cbn [filter]. destruct (p r), (q r); cbn [orb andb map];
    rewrite ?sum_cons; lia.
Qed.

Lemma heads_ext (p q : GuestRecord -> bool) (t : GuestTable) :
  (forall r, p r = q r) -> heads p t = heads q t.
Proof. intros H. unfold heads. rewrite (filter_ext _ _ H). reflexivity. Qed.

Lemma heads_complement (p : GuestRecord -> bool) (t : GuestTable) :
  heads p t + heads (fun r => negb (p r)) t = total_pax t.
Proof.
  unfold heads, total_pax. induction t as [|r t IH]; [reflexivity|].
  cbn [filter map]. destruct (p r); cbn [negb map]; rewrite ?sum_cons; lia.
Qed.

Lemma reception_total_heads (df : GuestTable) :
  reception_total df = heads (in_events ["Reception"; "Both"]) df.
Proof. unfold reception_total. rewrite plates_filter. reflexivity. Qed.

Lemma wedding_total_heads (df : GuestTable) :
  wedding_total df = heads (in_events ["Wedding (Mugurtham)"; "Both"]) df.
Proof. unfold wedding_total. rewrite plates_filter. reflexivity. Qed.

(** X8.  The two catering totals against the total of guests: together they
    count every guest once, the guests of the records for both events a
    second time, and not at all the guests of the records whose event is
    none of the three. *)
Theorem catering_against_total_pax (df : GuestTable) :
  reception_total df + wedding_total df
  + heads (fun r => negb (in_events ["Reception"; "Wedding (Mugurtham)"; "Both"] r)) df
  = total_pax df + heads (in_events ["Both"]) df.
Proof.
  rewrite reception_total_heads, wedding_total_heads.
  rewrite <- (heads_split (in_events ["Reception"; "Both"])
                (in_events ["Wedding (Mugurtham)"; "Both"]) df).
  rewrite <- (heads_complement
                (in_events ["Reception"; "Wedding (Mugurtham)"; "Both"]) df).
  rewrite (heads_ext (fun r => in_events ["Reception"; "Both"] r
                               || in_events ["Wedding (Mugurtham)"; "Both"] r)
             (in_events ["Reception"; "Wedding (Mugurtham)"; "Both"])).
  - rewrite (heads_ext (fun r => in_events ["Reception"; "Both"] r
                                 && in_events ["Wedding (Mugurtham)"; "Both"] r)
               (in_events ["Both"])); [lia|].
    intros r. unfold in_events. cbn [existsb].
    destruct (String.eqb_spec (Event r) "Reception") as [->|_]; [reflexivity|].
    destruct (Event r =? "Wedding (Mugurtham)")%string,
      (Event r =? "Both")%string; reflexivity.
  - intros r. unfold in_events. cbn [existsb].
    destruct (Event r =? "Reception")%string,
      (Event r =? "Wedding (Mugurtham)")%string,
      (Event r =? "Both")%string; reflexivity.
Qed.

Lemma room_df_rows (df : GuestTable) :
  Forall (fun row => 0 < room_Rooms_Required row) (room_df df)
  /\ (room_df df = [] <-> Forall (fun r => Rooms_Required r <= 0) df).
Proof.
  rewrite room_df_filter. split.
  - apply Forall_forall. intros row Hrow. apply in_map_iff in Hrow.
    destruct Hrow as [r [<- Hr]]. apply filter_In in Hr. destruct Hr as [_ Hr].
    apply Z.ltb_lt in Hr. exact Hr.
  - induction df as [|r df IH]; cbn [filter map].
    + split; [constructor | reflexivity].
    + unfold Spec.needs_room at 1. destruct (0 <? Rooms_Required r) eqn:E.
      * cbn [map]. split; [discriminate|]. intros H. inversion H; subst.
        apply Z.ltb_lt in E. lia.
      * apply Z.ltb_ge in E. rewrite IH. split.
        -- intros H. constructor; assumption.
        -- intros H. inversion H; assumption.
Qed.

(** X9.  The second tab shows "No data." exactly for the table without
    records.  Otherwise it says that no rooms are needed exactly when no
    record asks for a room, and the table of rooms it shows else is not
    empty and holds only rows with at least one room. *)
Theorem tab2_room_view (df : GuestTable) :
  (tab2 df = None <-> df = [])
  /\ (forall l, tab2 df = Some l ->
        (shown_room_view l = NoRoomsNeeded
         <-> Forall (fun r => Rooms_Required r <= 0) df)
        /\ (forall rows, shown_room_view l = RoomsTable rows ->
              rows = room_df df /\ rows <> []
              /\ Forall (fun row => 0 < room_Rooms_Required row) rows)).
Proof.
  split.
  - unfold tab2. destruct df; cbn [empty]; split; intros H;
      (reflexivity || discriminate).
  - intros l. unfold tab2. destruct df as [|r df]; cbn [empty]; [discriminate|].
    intros H. injection H as <-. cbn [shown_room_view].
    destruct (room_df_rows (r :: df)) as [Hrows Hnone].
    destruct (room_df (r :: df)) as [|row rows'] eqn:E; cbn [empty negb].
    + split; [|discriminate]. split; intros _; [apply Hnone|]; reflexivity.
    + split.
      * split; [discriminate|]. intros H. apply Hnone in H. discriminate.
      * intros rows H. injection H as <-. repeat split; [discriminate|exact Hrows].
Qed.

Lemma tab2_room_view_sample :
  exists l, tab2 sample_table = Some l
    /\ shown_room_view l = RoomsTable (room_df sample_table)
    /\ room_df sample_table <> [].
Proof.
  eexists. split; [reflexivity|]. split; [reflexivity|].
  destruct (tab2_room_view sample_table) as [_ H].
  destruct (H _ eq_refl) as [_ Hrows].
  destruct (Hrows _ eq_refl) as [_ [Hne _]]. exact Hne.
Defined.




(** ** Groups *)

Lemma add_to_group_keys (k : string) (v : Z) (groups : list (string * Z)) (P : string -> Prop) :
  P k -> Forall P (map fst groups) -> Forall P (map fst (add_to_group k v groups)).
Proof.
  intros Hk. induction groups as [|[k' v'] groups IH]; cbn [add_to_group map fst].
  - intros _. constructor; [exact Hk|constructor].
  - intros H. inversion H as [|? ? Hk' Hrest]; subst.
    destruct (String.compare k k'); cbn [map fst].
    + constructor; assumption.
    + constructor; [exact Hk|]. constructor; assumption.
    + constructor; [exact Hk'|]. apply IH. exact Hrest.
Qed.

Lemma compare_Gt_lt (k k' : string) : String.compare k k' = Gt -> String_as_OT.lt k' k.
Proof.
  intros H. apply String_as_OT.cmp_lt. unfold String_as_OT.cmp.
  rewrite String.compare_antisym, H. reflexivity.
Qed.

Lemma add_to_group_sorted (k : string) (v : Z) (groups : list (string * Z)) :
  StronglySorted String_as_OT.lt (map fst groups) -> StronglySorted String_as_OT.lt (map fst (add_to_group k v groups)).
Proof.
  induction groups as [|[k' v'] groups IH]; cbn [add_to_group map fst].
  - intros _. constructor; constructor.
  - intros H. inversion H as [|? ? Hsorted Hall]; subst.
    destruct (String.compare k k') eqn:E; cbn [map fst].
    + exact H.
    + apply String_as_OT.cmp_lt in E. constructor; [exact H|].
      constructor; [exact E|].
      eapply Forall_impl; [|exact Hall]. intros k2 Hk2.
      eapply String_as_OT.lt_trans; eassumption.
    + constructor; [apply IH; exact Hsorted|].
      apply add_to_group_keys; [apply compare_Gt_lt; exact E | exact Hall].
Qed.

Lemma add_to_group_sum (k : string) (v : Z) (groups : list (string * Z)) :
  sum (map snd (add_to_group k v groups)) = sum (map snd groups) + v.
Proof.
  induction groups as [|[k' v'] groups IH]; cbn [add_to_group map snd].
  - rewrite sum_one. reflexivity.
  - destruct (String.compare k k'); cbn [map snd]; rewrite ?sum_cons, ?IH; lia.
Qed.

Lemma group_of_below (k : string) (groups : list (string * Z)) :
  Forall (String_as_OT.lt k) (map fst groups) -> group_of k groups = None.
Proof.
  induction groups as [|[k' v'] groups IH]; cbn [group_of map fst]; [reflexivity|].
  intros H. inversion H as [|? ? Hlt Hrest]; subst.
  destruct (String.eqb_spec k' k) as [->|_].
  - exfalso. exact (String_as_OT.lt_not_eq _ _ Hlt eq_refl).
  - apply IH. exact Hrest.
Qed.

Lemma group_of_add (k k2 : string) (v : Z) (groups : list (string * Z)) :
  StronglySorted String_as_OT.lt (map fst groups) ->
  group_of k2 (add_to_group k v groups)
  = if (k =? k2)%string
    then Some (match group_of k groups with Some v' => v' + v | None => v end)
    else group_of k2 groups.
Proof.
  induction groups as [|[k' v'] groups IH]; cbn [add_to_group map fst].
  - intros _. cbn [group_of]. destruct (k =? k2)%string; reflexivity.
  - intros H. inversion H as [|? ? Hsorted Hall]; subst.
    destruct (String.compare k k') eqn:E.
    + apply String.compare_eq_iff in E. subst k'. cbn [group_of].
      rewrite String.eqb_refl. destruct (k =? k2)%string; reflexivity.
    + apply String_as_OT.cmp_lt in E. cbn [group_of].
      destruct (String.eqb_spec k k2) as [->|Hk]; [|reflexivity].
      destruct (String.eqb_spec k' k2) as [->|_].
      * exfalso. exact (String_as_OT.lt_not_eq _ _ E eq_refl).
      * rewrite group_of_below; [reflexivity|].
        eapply Forall_impl; [|exact Hall]. intros k3 Hk3.
        eapply String_as_OT.lt_trans; eassumption.
    + apply compare_Gt_lt in E. cbn [group_of]. rewrite (IH Hsorted).
      destruct (String.eqb_spec k' k2) as [->|Hk'].
      * destruct (String.eqb_spec k k2) as [->|_]; [|reflexivity].
        exfalso. exact (String_as_OT.lt_not_eq _ _ E eq_refl).
      * destruct (String.eqb_spec k' k) as [->|_]; [|reflexivity].
        exfalso. exact (String_as_OT.lt_not_eq _ _ E eq_refl).
Qed.

Lemma filter_none {A : Type} (p : A -> bool) (l : list A) :
  existsb p l = false -> filter p l = [].
Proof.
  induction l as [|x l IH]; cbn [existsb filter]; [reflexivity|].
  destruct (p x); cbn [orb]; [discriminate|exact IH].
Qed.

Lemma groupby_sum_sorted (key : GuestRecord -> string) (value : GuestRecord -> Z)
    (df : GuestTable) :
  StronglySorted String_as_OT.lt (map fst (groupby_sum key value df)).
Proof.
  induction df as [|r df IH]; cbn [groupby_sum fold_right].
  - constructor.
  - apply add_to_group_sorted. exact IH.
Qed.

Lemma groupby_sum_group (key : GuestRecord -> string) (value : GuestRecord -> Z)
    (df : GuestTable) (k : string) :
  group_of k (groupby_sum key value df)
  = if existsb (fun r => (key r =? k)%string) df
    then Some (sum (map value (filter (fun r => (key r =? k)%string) df)))
    else None.
Proof.
  induction df as [|r df IH]; [reflexivity|].
  change (groupby_sum key value (r :: df))
    with (add_to_group (key r) (value r) (groupby_sum key value df)).
  rewrite (group_of_add _ _ _ _ (groupby_sum_sorted key value df)).
  cbn [existsb filter]. destruct (String.eqb_spec (key r) k) as [Hk|Hk].
  - subst k. rewrite IH. cbn [orb map]. rewrite sum_cons.
    destruct (existsb _ df) eqn:E.
    + f_equal. lia.
    + f_equal. replace (filter (fun r0 => (key r0 =? key r)%string) df) with (@nil GuestRecord).
      * unfold sum. cbn. lia.
      * symmetry. apply filter_none. exact E.
  - cbn [orb]. exact IH.
Qed.

Lemma group_of_In (groups : list (string * Z)) (k : string) (v : Z) :
  StronglySorted String_as_OT.lt (map fst groups) ->
  In (k, v) groups <-> group_of k groups = Some v.
Proof.
  induction groups as [|[k' v'] groups IH]; cbn [group_of map fst In].
  - intros _. split; [contradiction|discriminate].
  - intros H. inversion H as [|? ? Hsorted Hall]; subst.
    destruct (String.eqb_spec k' k) as [->|Hk].
    + split.
      * intros [E|Hin]; [congruence|]. exfalso.
        apply (in_map fst) in Hin. cbn [fst] in Hin.
        rewrite Forall_forall in Hall.
        exact (String_as_OT.lt_not_eq _ _ (Hall _ Hin) eq_refl).
      * intros E. left. congruence.
    + rewrite <- (IH Hsorted). split.
      * intros [E|Hin]; [congruence|exact Hin].
      * intros Hin. right. exact Hin.
Qed.

(** X11.  The pie of categories has one slice for each category that a record
    of the table has and no other, the slices come in the order of their
    names, each slice is the head count of the records of its category, and
    the slices add up to the total of guests. *)
Theorem cat_counts_slices (df : GuestTable) :
  StronglySorted String_as_OT.lt (map fst (cat_counts df))
  /\ NoDup (map fst (cat_counts df))
  /\ (forall k v,
        In (k, v) (cat_counts df)
        <-> (exists r, In r df /\ Category r = k)
            /\ v = heads (fun r => (Category r =? k)%string) df)
  /\ sum (map snd (cat_counts df)) = total_pax df.
Proof.
  assert (Hsorted := groupby_sum_sorted Category Headcount df).
  split; [exact Hsorted|]. split; [|split].
  - unfold cat_counts. induction Hsorted as [|k ks _ IH Hall]; constructor.
    + intros Hin. rewrite Forall_forall in Hall.
      exact (String_as_OT.lt_not_eq _ _ (Hall _ Hin) eq_refl).
    + exact IH.
  - intros k v. unfold cat_counts. rewrite (group_of_In _ k v Hsorted).
    rewrite groupby_sum_group. unfold heads.
    destruct (existsb (fun r => (Category r =? k)%string) df) eqn:E.
    + apply existsb_exists in E. destruct E as [r [Hr Hk]].
      apply String.eqb_eq in Hk. split.
      * intros H. injection H as <-. split; [exists r; auto|reflexivity].
      * intros [_ ->]. reflexivity.
    + split; [discriminate|]. intros [[r [Hr Hk]] _]. exfalso.
      assert (existsb (fun r => (Category r =? k)%string) df = true).
      { apply existsb_exists. exists r. split; [exact Hr|].
        apply String.eqb_eq. exact Hk. }
      congruence.
  - unfold cat_counts, total_pax. induction df as [|r df IH]; [reflexivity|].
    change (groupby_sum Category Headcount (r :: df))
      with (add_to_group (Category r) (Headcount r)
              (groupby_sum Category Headcount df)).
    rewrite add_to_group_sum. cbn [map]. rewrite sum_cons.
    rewrite IH; [lia|]. apply groupby_sum_sorted.
Qed.

(** ** The loaded table *)

Lemma bind_Ok {A B : Type} (m : result A) (k : A -> result B) (b : B) :
  bind m k = Ok b -> exists a, m = Ok a /\ k a = Ok b.
Proof. destruct m as [a|e]; cbn [bind]; [eauto|discriminate]. Qed.

Lemma astype_int_Ok (s h : Series) :
  astype_int s = Ok h ->
  Forall is_int h /\ List.length h = List.length s
  /\ (forall i x, nth_error s i = Some x ->
        exists z, Py.int x = Ok z /\ nth_error h i = Some (CInt z)).
Proof.
  unfold astype_int. revert h. induction s as [|x s IH]; intros h; cbn [mapM].
  - intros H. apply Ok_inj in H. subst h. repeat split; [constructor|].
    intros [|i] y; discriminate.
  - intros H. apply bind_Ok in H. destruct H as [c [Hc H]].
    apply bind_Ok in Hc. destruct Hc as [z [Hz Hc]]. apply Ok_inj in Hc. subst c.
    apply bind_Ok in H. destruct H as [h' [Hh' H]]. apply Ok_inj in H. subst h.
    destruct (IH h' Hh') as [Hint [Hlen Hnth]]. repeat split.
    + constructor; [eexists; reflexivity | exact Hint].
    + cbn [List.length]. rewrite Hlen. reflexivity.
    + intros [|i] y; cbn [nth_error].
      * intros E. injection E as <-. exists z. auto.
      * apply Hnth.
Qed.

Lemma text_of_strs (s : Series) : Forall is_str (text_of s).
Proof.
  unfold text_of, astype_str. apply Forall_forall. intros x Hx.
  apply in_map_iff in Hx. destruct Hx as [y [<- _]]. eexists. reflexivity.
Qed.

Lemma astype_bool_bools (s : Series) : Forall is_bool (astype_bool s).
Proof.
  unfold astype_bool. apply Forall_forall. intros x Hx.
  apply in_map_iff in Hx. destruct Hx as [y [<- _]]. eexists. reflexivity.
Qed.

Lemma lookup_In (c : string) (s : Series) (cs : list (string * Series)) :
  lookup c cs = Some s -> In (c, s) cs.
Proof.
  induction cs as [|[c0 s0] cs IH]; cbn [lookup In]; [discriminate|].
  destruct (String.eqb_spec c0 c) as [->|_].
  - intros E. left. congruence.
  - intros E. right. apply IH. exact E.
Qed.




Lemma well_formed_lookup (df : DataFrame) (c : string) (s : Series) :
  well_formed df -> lookup c (columns df) = Some s -> List.length s = nrows df.
Proof.
  unfold well_formed. intros Hwf Hl. apply lookup_In in Hl.
  rewrite Forall_forall in Hwf. exact (Hwf _ Hl).
Qed.

Lemma well_formed_setitem (df : DataFrame) (c : string) (s : Series) :
  well_formed df -> List.length s = nrows df -> well_formed (setitem df c s).
Proof.
  unfold well_formed, setitem. cbn [columns nrows]. intros Hwf Hlen.
  induction Hwf as [|[c0 s0] cs H0 Hcs IH]; cbn [assign].
  - constructor; [exact Hlen|constructor].
  - destruct (c0 =? c)%string; constructor; assumption.
Qed.

Lemma well_formed_migrate (df : DataFrame) : well_formed df -> well_formed (migrate df).
Proof.
  intros Hwf. unfold migrate.
  destruct (has_column "Accommodation Needed" df && negb (has_column "Rooms Required" df));
    [|exact Hwf].
  destruct (lookup "Accommodation Needed" (columns df)) as [flags|] eqn:E; [|exact Hwf].
  apply well_formed_setitem; [exact Hwf|].
  unfold apply. rewrite length_map. exact (well_formed_lookup df _ _ Hwf E).
Qed.

Lemma column_length (df : DataFrame) (c : string) :
  well_formed df -> In c COLUMNS ->
  List.length (column (complete (migrate df)) c) = nrows df.
Proof.
  intros Hwf Hin. rewrite (column_complete _ c Hin).
  destruct (lookup c (columns (migrate df))) as [s|] eqn:E.
  - rewrite <- (migrate_nrows df).
    exact (well_formed_lookup _ _ _ (well_formed_migrate df Hwf) E).
  - rewrite repeat_length. apply migrate_nrows.
Qed.

Lemma text_of_length (s : Series) : List.length (text_of s) = List.length s.
Proof. unfold text_of, astype_str, fillna. rewrite !length_map. reflexivity. Qed.

Lemma records_of_columns (n : nat) :
  forall c1 c2 c3 c4 c5 h r b c9 : Series,
    List.length c1 = n -> List.length c2 = n -> List.length c3 = n ->
    List.length c4 = n -> List.length c5 = n -> List.length h = n ->
    List.length r = n -> List.length b = n -> List.length c9 = n ->
    Forall is_str c1 -> Forall is_str c2 -> Forall is_str c3 ->
    Forall is_str c4 -> Forall is_str c5 -> Forall is_int h ->
    Forall is_int r -> Forall is_bool b -> Forall is_str c9 ->
    exists g : GuestTable,
      List.length g = n
      /\ map (fun x => CStr (Name x)) g = c1
      /\ map (fun x => CStr (Category x)) g = c2
      /\ map (fun x => CStr (City x)) g = c3
      /\ map (fun x => CStr (Mobile x)) g = c4
      /\ map (fun x => CStr (Event x)) g = c5
      /\ map (fun x => CInt (Headcount x)) g = h
      /\ map (fun x => CInt (Rooms_Required x)) g = r
      /\ map (fun x => CBool (Invite_Given x)) g = b
      /\ map (fun x => CStr (Notes x)) g = c9.
Proof.
  induction n as [|n IH]; intros c1 c2 c3 c4 c5 h r b c9
    L1 L2 L3 L4 L5 L6 L7 L8 L9 F1 F2 F3 F4 F5 F6 F7 F8 F9.
  - apply length_zero_iff_nil in L1, L2, L3, L4, L5, L6, L7, L8, L9. subst.
    exists []. repeat split.
  - destruct c1 as [|x1 c1]; [discriminate L1|].
    destruct c2 as [|x2 c2]; [discriminate L2|].
    destruct c3 as [|x3 c3]; [discriminate L3|].
    destruct c4 as [|x4 c4]; [discriminate L4|].
    destruct c5 as [|x5 c5]; [discriminate L5|].
    destruct h as [|x6 h]; [discriminate L6|].
    destruct r as [|x7 r]; [discriminate L7|].
    destruct b as [|x8 b]; [discriminate L8|].
    destruct c9 as [|x9 c9]; [discriminate L9|].
    cbn [List.length] in *.
    apply Nat.succ_inj in L1, L2, L3, L4, L5, L6, L7, L8, L9.
    apply Forall_cons_iff in F1, F2, F3, F4, F5, F6, F7, F8, F9.
    destruct F1 as [[s1 ->] F1], F2 as [[s2 ->] F2], F3 as [[s3 ->] F3],
      F4 as [[s4 ->] F4], F5 as [[s5 ->] F5], F6 as [[z6 ->] F6],
      F7 as [[z7 ->] F7], F8 as [[b8 ->] F8], F9 as [[s9 ->] F9].
    destruct (IH c1 c2 c3 c4 c5 h r b c9 L1 L2 L3 L4 L5 L6 L7 L8 L9
                F1 F2 F3 F4 F5 F6 F7 F8 F9)
      as [g [Hlen [E1 [E2 [E3 [E4 [E5 [E6 [E7 [E8 E9]]]]]]]]]].
    exists (mkGuest s1 s2 s3 s4 s5 z6 z7 b8 s9 :: g).
    cbn [List.length map Name Category City Mobile Event Headcount
         Rooms_Required Invite_Given Notes].
    rewrite Hlen, E1, E2, E3, E4, E5, E6, E7, E8, E9. repeat split.
Qed.

Lemma loaded_is_table (df t : DataFrame) :
  well_formed df ->
  load_frame (Some df) = Ok t ->
  exists g : GuestTable, t = to_frame g /\ List.length g = nrows df.
Proof.
  intros Hwf. rewrite load_frame_coerced. unfold coerced. intros H.
  apply bind_Ok in H. destruct H as [h [Hh H]].
  apply bind_Ok in H. destruct H as [r [Hr H]].
  apply Ok_inj in H. subst t.
  rewrite complete_nrows, migrate_nrows.
  apply astype_int_Ok in Hh, Hr.
  destruct Hh as [Fh [Lh _]], Hr as [Fr [Lr _]].
  unfold fillna in Lh, Lr. rewrite length_map in Lh, Lr.
  rewrite column_length in Lh, Lr by (try exact Hwf; unfold COLUMNS; cbn [In]; tauto).
  assert (Hlen : forall c, In c COLUMNS ->
                   List.length (text_of (column (complete (migrate df)) c)) = nrows df).
  { intros c Hc. rewrite text_of_length. apply column_length; assumption. }
  assert (Lb : List.length (astype_bool (fillna (CBool false)
                 (column (complete (migrate df)) "Invite Given"))) = nrows df).
  { unfold astype_bool, fillna. rewrite !length_map.
    apply column_length; [exact Hwf|unfold COLUMNS; cbn [In]; tauto]. }
  destruct (records_of_columns (nrows df) _ _ _ _ _ h r _ _
              (Hlen "Name" ltac:(unfold COLUMNS; cbn [In]; tauto))
              (Hlen "Category" ltac:(unfold COLUMNS; cbn [In]; tauto))
              (Hlen "City" ltac:(unfold COLUMNS; cbn [In]; tauto))
              (Hlen "Mobile" ltac:(unfold COLUMNS; cbn [In]; tauto))
              (Hlen "Event" ltac:(unfold COLUMNS; cbn [In]; tauto))
              Lh Lr Lb
              (Hlen "Notes" ltac:(unfold COLUMNS; cbn [In]; tauto))
              (text_of_strs _) (text_of_strs _) (text_of_strs _)
              (text_of_strs _) (text_of_strs _) Fh Fr
              (astype_bool_bools _) (text_of_strs _))
    as [g [Hg [E1 [E2 [E3 [E4 [E5 [E6 [E7 [E8 E9]]]]]]]]]].
  exists g. split; [|exact Hg]. unfold to_frame.
  rewrite Hg, E1, E2, E3, E4, E5, E6, E7, E8, E9. reflexivity.
Qed.

(** X13.  A stored table in which every column has a cell for every row
    loads, when it loads, as the frame of a table of guest records, with one
    record for each stored row. *)
Theorem load_frame_table (df t : DataFrame) :
  well_formed df ->
  load_frame (Some df) = Ok t ->
  exists g : GuestTable, t = to_frame g /\ List.length g = nrows df.
Proof. apply loaded_is_table. Qed.

Lemma load_frame_table_sample :
  well_formed legacy_frame
  /\ exists t g, load_frame (Some legacy_frame) = Ok t
       /\ t = to_frame g /\ List.length g = 3%nat.
Proof.
  assert (Hwf : well_formed legacy_frame) by (repeat constructor).
  split; [exact Hwf|].
  assert (Hload : exists t, load_frame (Some legacy_frame) = Ok t).
  { vm_compute. eexists. reflexivity. }
  destruct Hload as [t Hload]. exists t.
  destruct (load_frame_table legacy_frame t Hwf Hload) as [g [Hg Hlen]].
  exists g. auto.
Defined.

Lemma text_of_map_str {A : Type} (f : A -> string) (l : list A) :
  text_of (map (fun x => CStr (f x)) l) = map (fun x => CStr (f x)) l.
Proof. unfold text_of, astype_str, fillna. rewrite !map_map. reflexivity. Qed.

Lemma map_ints {A : Type} (f : A -> Z) (l : list A) :
  Forall is_int (map (fun x => CInt (f x)) l).
Proof.
  apply Forall_forall. intros x Hx. apply in_map_iff in Hx.
  destruct Hx as [y [<- _]]. eexists. reflexivity.
Qed.

Lemma astype_bool_map_bool {A : Type} (f : A -> bool) (l : list A) :
  astype_bool (fillna (CBool false) (map (fun x => CBool (f x)) l))
  = map (fun x => CBool (f x)) l.
Proof. unfold astype_bool, fillna. rewrite !map_map. reflexivity. Qed.

Lemma load_frame_to_frame (g : GuestTable) :
  load_frame (Some (to_frame g)) = Ok (to_frame g).
Proof.
  rewrite load_frame_coerced. unfold coerced.
  rewrite complete_nrows, migrate_nrows.
  rewrite !column_complete by (unfold COLUMNS; cbn [In]; tauto).
  rewrite migrate_same by (right; unfold to_frame; frame_simpl; discriminate).
  unfold to_frame. frame_simpl.
  rewrite !(astype_int_ints _ _ (map_ints _ _)). cbn [bind].
  rewrite !text_of_map_str, astype_bool_map_bool. reflexivity.
Qed.

(** X14.  Loading changes nothing in a table that is already in canonical
    form: the frame of any table of guest records loads as itself, and so
    does any table that was loaded from a stored table with a cell for every
    row and column. *)
Theorem load_frame_idempotent :
  (forall g : GuestTable, load_frame (Some (to_frame g)) = Ok (to_frame g))
  /\ (forall df t : DataFrame,
        well_formed df -> load_frame (Some df) = Ok t ->
        load_frame (Some t) = Ok t).
Proof.
  split; [exact load_frame_to_frame|].
  intros df t Hwf Hload.
  destruct (loaded_is_table df t Hwf Hload) as [g [-> _]].
  apply load_frame_to_frame.
Qed.

Lemma load_frame_idempotent_sample :
  well_formed names_frame
  /\ exists t, load_frame (Some names_frame) = Ok t /\ load_frame (Some t) = Ok t.
Proof.
  assert (Hwf : well_formed names_frame) by (repeat constructor).
  split; [exact Hwf|].
  assert (Hload : exists t, load_frame (Some names_frame) = Ok t).
  { vm_compute. eexists. reflexivity. }
  destruct Hload as [t Hload]. exists t. split; [exact Hload|].
  exact (proj2 load_frame_idempotent names_frame t Hwf Hload).
Defined.

(** ** What loading depends on *)

Lemma load_frame_ext (df df' : DataFrame) :
  nrows df = nrows df' ->
  (forall c, In c COLUMNS ->
     lookup c (columns (migrate df)) = lookup c (columns (migrate df'))) ->
  load_frame (Some df) = load_frame (Some df').
Proof.
  intros Hrows Hcols. rewrite !load_frame_coerced. unfold coerced.
  rewrite !complete_nrows, !migrate_nrows, Hrows.
  assert (Hcol : forall c, In c COLUMNS ->
            column (complete (migrate df)) c = column (complete (migrate df')) c).
  { intros c Hc. rewrite !(column_complete _ c Hc), (Hcols c Hc).
    rewrite !migrate_nrows, Hrows. reflexivity. }
  rewrite (Hcol "Name"),
    (Hcol "Category"),
    (Hcol "City"),
    (Hcol "Mobile"),
    (Hcol "Event"),
    (Hcol "Headcount"),
    (Hcol "Rooms Required"),
    (Hcol "Invite Given"),
    (Hcol "Notes")
    by (unfold COLUMNS; cbn [In]; tauto).
  reflexivity.
Qed.

Lemma migrate_lookup (df : DataFrame) (c : string) :
  lookup c (columns (migrate df))
  = match lookup "Accommodation Needed" (columns df),
          lookup "Rooms Required" (columns df) with
    | Some flags, None =>
        if ("Rooms Required" =? c)%string then Some (map rooms_of_flag flags)
        else lookup c (columns df)
    | _, _ => lookup c (columns df)
    end.
Proof.
  destruct (lookup "Accommodation Needed" (columns df)) as [flags|] eqn:Hflag.
  - destruct (lookup "Rooms Required" (columns df)) as [rooms|] eqn:Hrooms.
    + rewrite migrate_same by (right; congruence). reflexivity.
    + rewrite (migrate_legacy df flags Hflag Hrooms). unfold setitem.
      cbn [columns]. apply lookup_assign.
  - rewrite migrate_same by (left; exact Hflag). reflexivity.
Qed.

(** X15.  Loading looks at the number of rows and at ten columns only, the
    nine standard ones and "Accommodation Needed": two stored tables that
    agree on these load alike, whatever other columns they hold and in
    whatever order their columns come. *)
Theorem load_frame_known_columns (df df' : DataFrame) :
  nrows df = nrows df' ->
  (forall c, In c ("Accommodation Needed" :: COLUMNS) ->
     lookup c (columns df) = lookup c (columns df')) ->
  load_frame (Some df) = load_frame (Some df').
Proof.
  intros Hrows Hcols. apply load_frame_ext; [exact Hrows|].
  intros c Hc. rewrite !migrate_lookup.
  rewrite <- (Hcols "Accommodation Needed") by (left; reflexivity).
  rewrite <- (Hcols "Rooms Required") by (right; unfold COLUMNS; cbn [In]; tauto).
  rewrite <- (Hcols c) by (right; exact Hc). reflexivity.
Qed.

Lemma load_frame_known_columns_sample :
  nrows names_frame = nrows names_frame_shuffled
  /\ load_frame (Some names_frame) = load_frame (Some names_frame_shuffled).
Proof.
  split; [reflexivity|].
  apply (load_frame_known_columns names_frame names_frame_shuffled eq_refl).
  intros c Hc. unfold COLUMNS in Hc. cbn [In] in Hc.
  repeat (destruct Hc as [Hc|Hc]; [subst c; reflexivity|]). contradiction.
Defined.

(** X16.  Stored rooms win over the old flag: when the stored table has a
    "Rooms Required" column, its "Accommodation Needed" column plays no
    part, and the table loads the same whatever that column holds. *)
Theorem load_frame_stored_rooms_win (df : DataFrame) (flags : Series) :
  has_column "Rooms Required" df = true ->
  load_frame (Some (setitem df "Accommodation Needed" flags))
  = load_frame (Some df).
Proof.
  intros Hrooms. rewrite has_column_lookup in Hrooms.
  destruct (lookup "Rooms Required" (columns df)) as [rooms|] eqn:E;
    [clear Hrooms|discriminate].
  apply load_frame_ext; [reflexivity|].
  intros c Hc. rewrite !migrate_same.
  - unfold setitem. cbn [columns]. rewrite lookup_assign.
    destruct (String.eqb_spec "Accommodation Needed" c) as [<-|_]; [|reflexivity].
    exfalso. unfold COLUMNS in Hc. cbn [In] in Hc.
    repeat (destruct Hc as [Hc|Hc]; [discriminate Hc|]). exact Hc.
  - right. congruence.
  - right. unfold setitem. cbn [columns]. rewrite lookup_assign.
    cbn [String.eqb Ascii.eqb Bool.eqb]. congruence.
Qed.

Lemma load_frame_stored_rooms_win_sample :
  has_column "Rooms Required" (to_frame sample_table) = true
  /\ load_frame (Some (setitem (to_frame sample_table) "Accommodation Needed"
                         [CBool true; CBool true; CBool true]))
     = load_frame (Some (to_frame sample_table)).
Proof.
  split; [reflexivity|].
  exact (load_frame_stored_rooms_win (to_frame sample_table)
           [CBool true; CBool true; CBool true] eq_refl).
Defined.

(** ** When loading raises *)





(** ** Missing values *)

Lemma nth_error_text_of (s : Series) (i : nat) :
  nth_error s i = Some CNaN -> nth_error (text_of s) i = Some (CStr "").
Proof.
  intros H. unfold text_of, astype_str, fillna. rewrite map_map, nth_error_map, H.
  reflexivity.
Qed.

Lemma nth_error_int_of (d : Z) (s h : Series) (i : nat) :
  astype_int (fillna (CInt d) s) = Ok h ->
  nth_error s i = Some CNaN -> nth_error h i = Some (CInt d).
Proof.
  intros Hh Hi. apply astype_int_Ok in Hh. destruct Hh as [_ [_ Hnth]].
  destruct (Hnth i (CInt d)) as [z [Hz Hz']].
  - unfold fillna. rewrite nth_error_map, Hi. reflexivity.
  - cbn [Py.int] in Hz. apply Ok_inj in Hz. subst z. exact Hz'.
Qed.

(** X18.  A missing value in a stored standard column is loaded as the
    default of the column: 1 for a head count, 0 for rooms, false for the
    invite and the empty text for the others. *)
Theorem load_frame_fills_missing (df t : DataFrame) (c : string) (s : Series) (i : nat) :
  load_frame (Some df) = Ok t ->
  In c COLUMNS ->
  lookup c (columns df) = Some s ->
  nth_error s i = Some CNaN ->
  exists s', lookup c (columns t) = Some s'
             /\ nth_error s' i = Some (default_of c).
Proof.
  rewrite load_frame_coerced. unfold coerced. intros H Hc Hs Hi.
  apply bind_Ok in H. destruct H as [h [Hh H]].
  apply bind_Ok in H. destruct H as [r [Hr H]].
  apply Ok_inj in H. subst t.
  assert (Hcol : column (complete (migrate df)) c = s).
  { rewrite (column_complete _ c Hc), migrate_lookup, Hs.
    destruct (lookup "Accommodation Needed" (columns df)); [|reflexivity].
    destruct (lookup "Rooms Required" (columns df)) eqn:E; [reflexivity|].
    destruct (String.eqb_spec "Rooms Required" c) as [<-|_]; [congruence|reflexivity]. }
  unfold COLUMNS in Hc. cbn [In] in Hc.
  repeat (destruct Hc as [Hc|Hc];
          [subst c; rewrite Hcol in *; frame_simpl; eexists; split; [reflexivity|];
           first [ apply nth_error_text_of; exact Hi
                 | exact (nth_error_int_of 1 _ _ _ Hh Hi)
                 | exact (nth_error_int_of 0 _ _ _ Hr Hi)
                 | unfold astype_bool, fillna;
                   rewrite map_map, nth_error_map, Hi; reflexivity ]|]).
  contradiction.
Qed.


Lemma load_frame_fills_missing_sample :
  exists t, load_frame (Some gaps_frame) = Ok t
    /\ exists s', lookup "Headcount" (columns t) = Some s'
         /\ nth_error s' 0 = Some (CInt 1).
Proof.
  assert (Hload : exists t, load_frame (Some gaps_frame) = Ok t).
  { vm_compute. eexists. reflexivity. }
  destruct Hload as [t Hload]. exists t. split; [exact Hload|].
  apply (load_frame_fills_missing gaps_frame t "Headcount" [CNaN; CInt 2] 0 Hload).
  - unfold COLUMNS. cbn [In]. tauto.
  - reflexivity.
  - reflexivity.
Defined.

(** ** The exported bytes *)

Lemma decode_encode_char (c : ascii) (bs : list Byte.byte) :
  Utf8.decode (Utf8.encode_char c ++ bs)
  = do s <- Utf8.decode bs; Ok (String c s).
Proof.
  destruct c as [[] [] [] [] [] [] [] []]; reflexivity.
Qed.

Lemma decode_encode (s : string) : Utf8.decode (Utf8.encode s) = Ok s.
Proof.
  induction s as [|c s IH]; [reflexivity|].
  cbn [Utf8.encode]. rewrite decode_encode_char, IH. reflexivity.
Qed.

(** X19.  Nothing is lost between the text of the table and the bytes of
    the file: the bytes [save_data] writes, and those offered for download,
    decode to the text of the table, so that loading after a save reads that
    very text. *)
Theorem save_then_load_reads_text (df : DataFrame) (fs : FileSystem) :
  Utf8.decode (convert_df df) = Ok (to_csv df)
  /\ load_data (save_data df fs)
     = do stored <- Reader.read_csv (to_csv df); load_frame (Some stored).
Proof.
  split.
  - unfold convert_df. apply decode_encode.
  - unfold save_data, load_data. rewrite to_csv_path_convert.
    unfold convert_df. rewrite decode_encode. reflexivity.
Qed.

(** ** Samples *)


Lemma add_guest_form_appends_sample :
  submitted kavya_form = true /\ name kavya_form <> ""
  /\ data (fst (add_guest_form kavya_form sample_session))
     = sample_table ++ [new_entry kavya_form]
  /\ in_sync (fst (add_guest_form kavya_form sample_session)).
Proof.
  assert (Hname : name kavya_form <> "") by discriminate.
  split; [reflexivity|]. split; [exact Hname|].
  destruct (add_guest_form_appends kavya_form sample_session eq_refl Hname)
    as [Hdata [_ [_ [_ Hsync]]]].
  split; [exact Hdata | exact Hsync].
Defined.

Lemma update_table_settles_sample :
  data sample_session <> [asha]
  /\ snd (update_table [asha] sample_session)
     = [WriteFile (convert_df (to_frame [asha])); Rerun]
  /\ files (fst (update_table [asha] sample_session))
     = Some (convert_df (to_frame [asha])).
Proof.
  assert (H : data sample_session <> [asha]) by discriminate.
  split; [exact H|].
  destruct (update_table_settles [asha] sample_session) as [_ [_ [Hchanged _]]].
  exact (Hchanged H).
Defined.

Lemma run_keeps_in_sync_sample :
  in_sync sample_session
  /\ in_sync (fst (run kavya_form sample_table sample_session)).
Proof.
  assert (H : in_sync sample_session) by reflexivity.
  split; [exact H|].
  exact (proj1 (run_keeps_in_sync kavya_form sample_table sample_session) H).
Defined.

Lemma run_without_rerun_sample :
  reruns (snd (run idle_form sample_table sample_session)) = false
  /\ run idle_form sample_table sample_session = (sample_session, []).
Proof.
  assert (H : reruns (snd (run idle_form sample_table sample_session)) = false)
    by (vm_compute; reflexivity).
  split; [exact H|].
  exact (proj1 (run_without_rerun idle_form sample_table sample_session H)).
Defined.

Lemma tab1_metrics_sample :
  exists m, tab1 sample_table = Some m
    /\ 1 <= metric_families m
    /\ metric_invites_sent m + metric_pending m = metric_families m.
Proof.
  eexists. split; [reflexivity|].
  destruct (proj2 (tab1_metrics sample_table) _ eq_refl) as [H1 [_ [_ H2]]].
  split; [exact H1 | exact H2].
Defined.
